(** * nur-scraper: the page-result pipeline of [sc.py]

    A shallow embedding of [NurContentExtractor], [deep_crawl_nur] and
    [save_final_dataset], and the properties of the pipeline that turn a
    stream of crawled pages into a deduplicated corpus on disk.

    Conventions of the model.
    - A Python [str] is a [string]; one [ascii] stands for one character, so
      [len] is [String.length] and slicing counts characters.
    - The output directory is a finite map from entry names to files;
      [os.path.join(output_dir, n)] addresses entry [n] of that map.  Opening
      an entry for writing always succeeds.
    - [self.visited_urls] is a finite set of strings.
    - [datetime.now()] is an oracle indexed by the number of clock readings
      made so far; [print] appends an event to the standard output.
    - The crawler ([crawl4ai]) is the producer of a finite list of page
      results; the markup parser ([bs4]) is a parameter of the development. *)

From Stdlib Require Import String Ascii List ZArith Lia Bool.
From stdpp Require Import base gmap sets list strings.

Set Warnings "-register-all,-clear-no-such-hyp".

(** ** Python string operations used by the source *)

Module PyStr.

(** [s.startswith(p)] *)
Fixpoint startswith (s p : string) {struct p} : bool :=
  match p, s with
  | EmptyString, _ => true
  | String _ _, EmptyString => false
  | String a p', String b s' => Ascii.eqb a b && startswith s' p'
  end.

(** [sub in s] *)
Fixpoint contains (sub s : string) : bool :=
  startswith s sub ||
  match s with
  | EmptyString => false
  | String _ s' => contains sub s'
  end.

(** [s.endswith(suf)] *)
Fixpoint endswith (s suf : string) : bool :=
  String.eqb s suf ||
  match s with
  | EmptyString => false
  | String _ s' => endswith s' suf
  end.

(** [s[:n]] *)
Fixpoint take (n : nat) (s : string) : string :=
  match n, s with
  | S n', String c s' => String c (take n' s')
  | _, _ => EmptyString
  end.

(** [re.sub(r'[cs]', r, s)] for a character class [cs] and a
    one-character replacement [r]. *)
Fixpoint sub_class (cls : ascii -> bool) (r : ascii) (s : string) : string :=
  match s with
  | EmptyString => EmptyString
  | String c s' => String (if cls c then r else c) (sub_class cls r s')
  end.

(** truthiness of a [str] *)
Definition truthy (s : string) : bool :=
  match s with EmptyString => false | String _ _ => true end.

Definition newline : string := String (ascii_of_nat 10) EmptyString.

End PyStr.

(** ** JSON documents, files and exceptions *)

(** The value [json.load] returns, which is also what [json.dump] is given:
    objects keep their members in document order.  Numbers are integers;
    the pipeline only counts with them and never reads one back. *)
Inductive json : Type :=
| JNull
| JBool (b : bool)
| JNum (n : Z)
| JStr (s : string)
| JArr (items : list json)
| JObj (members : list (string * json)).

(** [d[key]] on the members of an object; as in [json.load], the last
    member with a repeated key wins. *)
Fixpoint obj_get (key : string) (members : list (string * json)) : option json :=
  match members with
  | [] => None
  | (k, v) :: rest =>
      match obj_get key rest with
      | Some w => Some w
      | None => if String.eqb k key then Some v else None
      end
  end.

Definition jget (key : string) (j : json) : option json :=
  match j with
  | JObj members => obj_get key members
  | _ => None
  end.

(** An entry of the output directory.  [JsonFile doc] is a file whose text
    is the JSON document [doc]; [TextFile] is any other regular file
    (reading it with [json.load] fails); [Unreadable] is an entry that
    [open] refuses (a directory, a file without read permission). *)
Inductive file : Type :=
| TextFile (text : string)
| JsonFile (doc : json)
| Unreadable.

Inductive exn : Type := OSError | JSONDecodeError | TypeError | KeyError.

(** The result of a statement that may raise. *)
Inductive outcome (A : Type) : Type :=
| Returned (a : A)
| Raised (e : exn).
Arguments Returned {A} a.
Arguments Raised {A} e.

(** ** Records of the pipeline *)

(** A reading of [datetime.now()], through the two renderings the source
    uses: [.isoformat()] and [.strftime("%Y%m%d_%H%M%S")]. *)
Record datetime : Type := {
  isoformat : string;
  strftime_YmdHMS : string
}.

(** The dict built by [extract_content]. *)
Record ArticleRecord : Type := {
  url : string;
  title : string;
  content : string;
  crawl_time : string;
  content_length : nat
}.

(** What the crawler delivers for one page. *)
Record CrawlResult : Type := {
  r_url : string;
  r_success : bool;
  r_html : string
}.

(** The calls of [print], in the order of the source. *)
Inductive output : Type :=
| OutExisting (n : nat)
| OutStart
| OutConfig (max_pages max_depth : Z)
| OutDirectory (dir : string)
| OutRule
| OutSaved (success : nat) (title30 : string)
| OutProgress (results success skips : nat)
| OutBlankRule
| OutFinished
| OutTotalPages (n : nat)
| OutExtracted (n : nat)
| OutSkipped (n : nat)
| OutNothingToSave
| OutDatasetAt (path : option string).

(** [json.dump] of an article dict and of the aggregate dict. *)
Definition article_json (a : ArticleRecord) : json :=
  JObj [ ("url", JStr (url a));
         ("title", JStr (title a));
         ("content", JStr (content a));
         ("crawl_time", JStr (crawl_time a));
         ("content_length", JNum (Z.of_nat (content_length a))) ].

Definition aggregate_json (crawl_date : string) (dataset : list ArticleRecord) : json :=
  JObj [ ("source", JStr "https://www.nur.cn/");
         ("crawl_date", JStr crawl_date);
         ("total_articles", JNum (Z.of_nat (length dataset)));
         ("articles", JArr (map article_json dataset)) ].

(** The hidden state of the process: the output directory, the number of
    clock readings so far, and what was printed. *)
Record World : Type := {
  files : gmap string file;
  ticks : nat;
  stdout : list output
}.

(** [NurContentExtractor] *)
Record NurContentExtractor : Type := {
  dataset : list ArticleRecord;
  output_dir : string;
  visited_urls : gset string
}.

(** [NurContentExtractor.__init__] *)
Definition new_extractor (dir : string) : NurContentExtractor :=
  {| dataset := []; output_dir := dir; visited_urls := ∅ |}.

(** [is_duplicate]: the answer and the extractor after the call. *)
Definition is_duplicate (self : NurContentExtractor) (u : string)
  : bool * NurContentExtractor :=
  if bool_decide (u ∈ visited_urls self) then (true, self)
  else (false,
        {| dataset := dataset self;
           output_dir := output_dir self;
           visited_urls := {[u]} ∪ visited_urls self |}).

(** ** Seeding the ledger: [load_existing_urls] *)

Module Seed.

(** ['articles' in data] *)
Definition has_articles (data : json) : outcome bool :=
  match data with
  | JObj members => Returned (bool_decide (is_Some (obj_get "articles" members)))
  | JArr items =>
      Returned (existsb (fun x => match x with
                                  | JStr s => String.eqb s "articles"
                                  | _ => false
                                  end) items)
  | JStr s => Returned (PyStr.contains "articles" s)
  | JNull | JBool _ | JNum _ => Raised TypeError
  end.

(** [v[key]] for a string [key] *)
Definition subscript (v : json) (key : string) : outcome json :=
  match v with
  | JObj members =>
      match obj_get key members with
      | Some x => Returned x
      | None => Raised KeyError
      end
  | _ => Raised TypeError
  end.

Fixpoint chars (s : string) : list json :=
  match s with
  | EmptyString => []
  | String c s' => JStr (String c EmptyString) :: chars s'
  end.

(** the values [for article in v] goes through *)
Definition iterate (v : json) : outcome (list json) :=
  match v with
  | JArr items => Returned items
  | JObj members => Returned (map JStr (remove_dups (map fst members)))
  | JStr s => Returned (chars s)
  | JNull | JBool _ | JNum _ => Raised TypeError
  end.

(** [self.visited_urls.add(v)]: lists and dicts are unhashable; a number,
    a boolean or [None] is added to the Python set but is equal to no
    string, so it leaves the set of strings as it is. *)
Definition set_add (v : json) (visited : gset string)
  : outcome unit * gset string :=
  match v with
  | JStr s => (Returned tt, {[s]} ∪ visited)
  | JNull | JBool _ | JNum _ => (Returned tt, visited)
  | JArr _ | JObj _ => (Raised TypeError, visited)
  end.

(** the loop [for article in data['articles']: add(article['url'])];
    the set keeps what was added before an exception. *)
Fixpoint add_urls (articles : list json) (visited : gset string)
  : outcome unit * gset string :=
  match articles with
  | [] => (Returned tt, visited)
  | article :: rest =>
      match subscript article "url" with
      | Raised e => (Raised e, visited)
      | Returned u =>
          match set_add u visited with
          | (Raised e, visited') => (Raised e, visited')
          | (Returned _, visited') => add_urls rest visited'
          end
      end
  end.

(** [open(...)] followed by [json.load(fp)] *)
Definition json_load (f : file) : outcome json :=
  match f with
  | JsonFile doc => Returned doc
  | TextFile _ => Raised JSONDecodeError
  | Unreadable => Raised OSError
  end.

(** the body of the [try] block *)
Definition try_body (f : file) (visited : gset string)
  : outcome unit * gset string :=
  match json_load f with
  | Raised e => (Raised e, visited)
  | Returned data =>
      match has_articles data with
      | Raised e => (Raised e, visited)
      | Returned false => (Returned tt, visited)
      | Returned true =>
          match subscript data "articles" with
          | Raised e => (Raised e, visited)
          | Returned arts =>
              match iterate arts with
              | Raised e => (Raised e, visited)
              | Returned items => add_urls items visited
              end
          end
      end
  end.

(** [try: ... except: pass] *)
Definition except_pass (r : outcome unit * gset string)
  : outcome unit * gset string :=
  (Returned tt, snd r).

(** one iteration of [for f in os.listdir(self.output_dir)] *)
Definition visit_entry (entry : string * file) (visited : gset string)
  : outcome unit * gset string :=
  if PyStr.endswith (fst entry) ".json"
  then except_pass (try_body (snd entry) visited)
  else (Returned tt, visited).

(** a [for] loop stops at the first iteration that raises *)
Fixpoint for_each (entries : list (string * file)) (visited : gset string)
  : outcome unit * gset string :=
  match entries with
  | [] => (Returned tt, visited)
  | entry :: rest =>
      match visit_entry entry visited with
      | (Raised e, visited') => (Raised e, visited')
      | (Returned _, visited') => for_each rest visited'
      end
  end.

End Seed.

(** [os.listdir]: the entries in the order the system lists them. *)
Definition listdir (dir : gmap string file) : list (string * file) :=
  map_to_list dir.

Definition load_existing_urls (self : NurContentExtractor) (dir : gmap string file)
  : outcome unit * NurContentExtractor :=
  let r := Seed.for_each (listdir dir) (visited_urls self) in
  (fst r,
   {| dataset := dataset self;
      output_dir := output_dir self;
      visited_urls := snd r |}).

(** ** Effects on the world *)

Definition print (o : output) (w : World) : World :=
  {| files := files w; ticks := ticks w; stdout := stdout w ++ [o] |}.

(** [with open(name, 'w') as f: f.write(...)] *)
Definition write_file (name : string) (f : file) (w : World) : World :=
  {| files := <[name := f]> (files w); ticks := ticks w; stdout := stdout w |}.

Definition advance (w : World) : World :=
  {| files := files w; ticks := S (ticks w); stdout := stdout w |}.

(** [os.path.join(dir, name)] *)
Definition path_join (dir name : string) : string := dir +:+ "/" +:+ name.

(** the character class of the pattern of [save_single_txt]: less-than,
    greater-than, colon, double quote (code 34), slash, backslash (code 92),
    vertical bar, question mark and star *)
Definition illegal_in_filename (c : ascii) : bool :=
  existsb (Ascii.eqb c)
    [ "<"%char; ">"%char; ":"%char; ascii_of_nat 34; "/"%char;
      ascii_of_nat 92; "|"%char; "?"%char; "*"%char ].

Definition safe_title_of (t : string) : string :=
  PyStr.take 50 (PyStr.sub_class illegal_in_filename "_"%char t).

(** [save_single_txt] *)
Definition save_single_txt (self : NurContentExtractor) (data : ArticleRecord)
    (w : World) : option string * World :=
  if negb (PyStr.truthy (title data)) then (None, w)
  else
    let safe_title := safe_title_of (title data) in
    let txt_filename := safe_title +:+ ".txt" in
    let text := (title data +:+ PyStr.newline +:+ PyStr.newline) +:+ content data in
    (Some txt_filename, write_file txt_filename (TextFile text) w).

(** The state of the [async for] loop of [deep_crawl_nur]: the extractor,
    the world and the three counters.  [calls] is ghost state: the
    arguments of every call of [extract_content], oldest first. *)
Record Loop : Type := {
  extractor : NurContentExtractor;
  world : World;
  result_count : nat;
  success_count : nat;
  skip_count : nat;
  calls : list (string * string)
}.

(** How an iteration of the loop body ends: at [continue], or by falling
    through to the progress report. *)
Inductive flow : Type :=
| Continue (st : Loop)
| Through (st : Loop).

Section Pipeline.

(** The markup parser: [BeautifulSoup(html, 'lxml').find(name, class_=c)]
    and [elem.get_text(separator=sep, strip=True)]. *)
Variable Tag : Type.
Variable soup_find : string -> string -> string -> option Tag.
Variable get_text : string -> Tag -> string.

(** The clock: [now n] is what the [n]-th call of [datetime.now()]
    returns. *)
Variable now : nat -> datetime.

Definition page_title (html : string) : string :=
  match soup_find html "h2" "tt" with
  | Some title_elem => get_text "" title_elem
  | None => ""
  end.

Definition page_content (html : string) : string :=
  match soup_find html "div" "view_p mazmun" with
  | Some content_elem => get_text PyStr.newline content_elem
  | None => ""
  end.

(** [extract_content]; the clock is read when the dict is built. *)
Definition extract_content (html_content u : string) (w : World)
  : option ArticleRecord * World :=
  if negb (PyStr.truthy html_content) then (None, w)
  else
    let title := page_title html_content in
    let content := page_content html_content in
    if negb (PyStr.truthy title) && negb (PyStr.truthy content) then (None, w)
    else
      (Some {| url := u;
               title := title;
               content := content;
               crawl_time := isoformat (now (ticks w));
               content_length := String.length content |},
       advance w).

(** [save_final_dataset] *)
Definition save_final_dataset (data : list ArticleRecord) (dir : string)
    (w : World) : option string * World :=
  match data with
  | [] => (None, print OutNothingToSave w)
  | _ :: _ =>
      let timestamp := strftime_YmdHMS (now (ticks w)) in
      let w := advance w in
      let name := "nur_dataset_" +:+ timestamp +:+ ".json" in
      let json_file := path_join dir name in
      let crawl_date := isoformat (now (ticks w)) in
      let w := advance w in
      (Some json_file,
       write_file name (JsonFile (aggregate_json crawl_date data)) w)
  end.

Definition with_world (w : World) (st : Loop) : Loop :=
  {| extractor := extractor st; world := w;
     result_count := result_count st; success_count := success_count st;
     skip_count := skip_count st; calls := calls st |}.

(** the statements of the loop body up to the progress report *)
Definition body (st : Loop) (result : CrawlResult) : flow :=
  if r_success result && PyStr.truthy (r_html result) then
    if PyStr.contains "/news/" (r_url result)
       && PyStr.endswith (r_url result) ".shtml" then
      let '(dup, ex) := is_duplicate (extractor st) (r_url result) in
      if dup then
        Continue {| extractor := ex; world := world st;
                    result_count := result_count st;
                    success_count := success_count st;
                    skip_count := S (skip_count st);
                    calls := calls st |}
      else
        let '(data, w) :=
          extract_content (r_html result) (r_url result) (world st) in
        let called := calls st ++ [(r_html result, r_url result)] in
        match data with
        | Some d =>
            let ex := {| dataset := dataset ex ++ [d];
                         output_dir := output_dir ex;
                         visited_urls := visited_urls ex |} in
            let success := S (success_count st) in
            let '(txt_file, w) := save_single_txt ex d w in
            let w := if (success mod 100 =? 0)%nat
                     then print (OutSaved success (PyStr.take 30 (title d))) w
                     else w in
            Through {| extractor := ex; world := w;
                       result_count := result_count st;
                       success_count := success;
                       skip_count := skip_count st;
                       calls := called |}
        | None =>
            Through {| extractor := ex; world := w;
                       result_count := result_count st;
                       success_count := success_count st;
                       skip_count := skip_count st;
                       calls := called |}
        end
    else Through st
  else Through st.

(** one iteration of [async for result in ...] *)
Definition step (st : Loop) (result : CrawlResult) : Loop :=
  let st := {| extractor := extractor st; world := world st;
               result_count := S (result_count st);
               success_count := success_count st;
               skip_count := skip_count st; calls := calls st |} in
  match body st result with
  | Continue st => st
  | Through st =>
      if (result_count st mod 500 =? 0)%nat
      then with_world
             (print (OutProgress (result_count st) (success_count st)
                                 (skip_count st)) (world st)) st
      else st
  end.

Definition run_loop (st : Loop) (stream : list CrawlResult) : Loop :=
  foldl step st stream.

(** the state in which the loop is entered *)
Definition loop_entry (ex : NurContentExtractor) (w : World) : Loop :=
  {| extractor := ex; world := w;
     result_count := 0; success_count := 0; skip_count := 0; calls := [] |}.

Definition output_directory : string := "nur_articles".

(** the statements of [deep_crawl_nur] before the loop, after seeding; the
    count printed is that of the strings of the ledger *)
Definition announce (max_pages max_depth : Z) (ex : NurContentExtractor)
    (w : World) : World :=
  print OutRule
    (print (OutDirectory output_directory)
       (print (OutConfig max_pages max_depth)
          (print OutStart
             (print (OutExisting (size (visited_urls ex))) w)))).

(** the statements of [deep_crawl_nur] after the loop *)
Definition finish (st : Loop) : list ArticleRecord * World :=
  let w := print (OutSkipped (skip_count st))
             (print (OutExtracted (success_count st))
                (print (OutTotalPages (result_count st))
                   (print OutFinished (print OutBlankRule (world st))))) in
  let '(output_file, w) :=
    save_final_dataset (dataset (extractor st)) output_directory w in
  (dataset (extractor st), print (OutDatasetAt output_file) w).

(** the state of the loop of a run once [stream] is exhausted *)
Definition streamed (max_pages max_depth : Z) (stream : list CrawlResult)
    (ex : NurContentExtractor) (w : World) : Loop :=
  run_loop (loop_entry ex (announce max_pages max_depth ex w)) stream.

(** [deep_crawl_nur]: what it returns (or raises) and the world it
    leaves, for the page results [stream] delivered by the crawler. *)
Definition deep_crawl_nur (max_pages max_depth : Z)
    (stream : list CrawlResult) (w : World)
  : outcome (list ArticleRecord) * World :=
  match load_existing_urls (new_extractor output_directory) (files w) with
  | (Raised e, _) => (Raised e, w)
  | (Returned _, ex) =>
      let '(returned, w) := finish (streamed max_pages max_depth stream ex w) in
      (Returned returned, w)
  end.

End Pipeline.

(** ** Notions used in the statements *)

(** The URLs that seeding takes from one file of the output directory. *)
Definition urls_in (f : file) : gset string := snd (Seed.try_body f ∅).

(** [f] is a dataset file in the layout of [save_final_dataset]: an object
    whose member [articles] is a list of objects, the [i]-th with the
    string [urls !! i] as its member [url]. *)
Definition lists_urls (urls : list string) (f : file) : Prop :=
  ∃ members arts,
    f = JsonFile (JObj members)
    ∧ obj_get "articles" members = Some (JArr arts)
    ∧ Forall2 (λ a u, jget "url" a = Some (JStr u)) arts urls.

(** The URL filter of the loop: the four tests a page result passes
    before the ledger is consulted. *)
Definition accepted (result : CrawlResult) : bool :=
  r_success result && PyStr.truthy (r_html result)
  && PyStr.contains "/news/" (r_url result)
  && PyStr.endswith (r_url result) ".shtml".

(** The name [save_final_dataset] gives the aggregate file. *)
Definition dataset_name (timestamp : string) : string :=
  "nur_dataset_" +:+ timestamp +:+ ".json".

(** The name and the text of the artifact [save_single_txt] writes. *)
Definition txt_name (d : ArticleRecord) : string :=
  safe_title_of (title d) +:+ ".txt".

Definition txt_text (d : ArticleRecord) : string :=
  (title d +:+ PyStr.newline +:+ PyStr.newline) +:+ content d.

(** The directory after [save_single_txt] on [d]. *)
Definition txt_written (d : ArticleRecord) (dir : gmap string file)
  : gmap string file :=
  if PyStr.truthy (title d) then <[txt_name d := TextFile (txt_text d)]> dir
  else dir.

(** The extractor of a run once the ledger is seeded from the directory. *)
Definition seeded (w : World) : NurContentExtractor :=
  snd (load_existing_urls (new_extractor output_directory) (files w)).

Section Notions.

Variable Tag : Type.
Variable soup_find : string -> string -> string -> option Tag.
Variable get_text : string -> Tag -> string.
Variable now : nat -> datetime.

(** The state of the loop of the run started in world [w], once the
    page results [stream] have been consumed. *)
Definition crawl_state (max_pages max_depth : Z)
    (stream : list CrawlResult) (w : World) : Loop :=
  streamed Tag soup_find get_text now max_pages max_depth stream (seeded w) w.

(** What one iteration of the loop does to the state, by the four ways
    through its body. *)
Inductive iteration (st : Loop) (r : CrawlResult) (st' : Loop) : Prop :=
| iter_rejected :
    accepted r = false →
    extractor st' = extractor st →
    files (world st') = files (world st) →
    ticks (world st') = ticks (world st) →
    success_count st' = success_count st →
    skip_count st' = skip_count st →
    calls st' = calls st →
    iteration st r st'
| iter_duplicate :
    accepted r = true →
    r_url r ∈ visited_urls (extractor st) →
    extractor st' = extractor st →
    world st' = world st →
    success_count st' = success_count st →
    skip_count st' = S (skip_count st) →
    calls st' = calls st →
    iteration st r st'
| iter_empty :
    accepted r = true →
    r_url r ∉ visited_urls (extractor st) →
    extract_content Tag soup_find get_text now (r_html r) (r_url r) (world st)
      = (None, world st) →
    dataset (extractor st') = dataset (extractor st) →
    output_dir (extractor st') = output_dir (extractor st) →
    visited_urls (extractor st') = {[r_url r]} ∪ visited_urls (extractor st) →
    files (world st') = files (world st) →
    ticks (world st') = ticks (world st) →
    success_count st' = success_count st →
    skip_count st' = skip_count st →
    calls st' = calls st ++ [(r_html r, r_url r)] →
    iteration st r st'
| iter_captured (d : ArticleRecord) :
    accepted r = true →
    r_url r ∉ visited_urls (extractor st) →
    extract_content Tag soup_find get_text now (r_html r) (r_url r) (world st)
      = (Some d, advance (world st)) →
    dataset (extractor st') = dataset (extractor st) ++ [d] →
    output_dir (extractor st') = output_dir (extractor st) →
    visited_urls (extractor st') = {[r_url r]} ∪ visited_urls (extractor st) →
    files (world st') = txt_written d (files (world st)) →
    ticks (world st') = S (ticks (world st)) →
    success_count st' = S (success_count st) →
    skip_count st' = skip_count st →
    calls st' = calls st ++ [(r_html r, r_url r)] →
    iteration st r st'.

(** The invariant of the loop that ties the run buffer and the calls of
    the extractor to the ledger. *)
Definition consistent (st : Loop) : Prop :=
  NoDup (map url (dataset (extractor st)))
  ∧ (∀ d, d ∈ dataset (extractor st) → url d ∈ visited_urls (extractor st))
  ∧ NoDup (map snd (calls st))
  ∧ (∀ c, c ∈ calls st → snd c ∈ visited_urls (extractor st))
  ∧ (∀ d, d ∈ dataset (extractor st) →
          content_length d = String.length (content d)).

End Notions.

(** ** A concrete parser and clock

    Flat pages, on which the two library calls are easy to state: the
    element [<name class='c'>text</name>] holds one trimmed text node, and
    [get_text] returns it.  The development is parametric in the parser;
    this one serves to run the pipeline on concrete streams. *)

Module Sample.

Definition Tag : Type := string.

Fixpoint drop (n : nat) (s : string) : string :=
  match n, s with
  | S n', String _ s' => drop n' s'
  | _, _ => s
  end.

(** what follows the first occurrence of [marker] in [s] *)
Fixpoint after (marker s : string) : option string :=
  if PyStr.startswith s marker then Some (drop (String.length marker) s)
  else match s with
       | EmptyString => None
       | String _ s' => after marker s'
       end.

(** what precedes the first occurrence of [marker] in [s] *)
Fixpoint before (marker s : string) : option string :=
  if PyStr.startswith s marker then Some EmptyString
  else match s with
       | EmptyString => None
       | String c s' => String c <$> before marker s'
       end.

Definition soup_find (html name cls : string) : option Tag :=
  after ("<" +:+ name +:+ " class='" +:+ cls +:+ "'>") html
    ≫= before ("</" +:+ name +:+ ">").

Definition get_text (sep : string) (e : Tag) : string := e.

Fixpoint tally (n : nat) : string :=
  match n with
  | O => EmptyString
  | S n' => String "1"%char (tally n')
  end.

(** a clock whose [n]-th reading is rendered with [n] strokes *)
Definition now (n : nat) : datetime :=
  {| isoformat := "T" +:+ tally n; strftime_YmdHMS := "D" +:+ tally n |}.

Definition page (u : string) (ok : bool) (html : string) : CrawlResult :=
  {| r_url := u; r_success := ok; r_html := html |}.

Definition empty_world : World :=
  {| files := ∅; ticks := 0; stdout := [] |}.

Definition article_page : string :=
  "<html><h2 class='tt'>Head</h2><div class='view_p mazmun'>Body</div></html>".

Definition blank_page : string := "<html><p>nothing here</p></html>".

(** the pipeline with this parser and this clock *)
Abbreviation extract := (extract_content Tag soup_find get_text now).
Abbreviation state := (crawl_state Tag soup_find get_text now 50000 3).
Abbreviation run := (deep_crawl_nur Tag soup_find get_text now 50000 3).

Definition first_url : string := "https://www.nur.cn/news/1.shtml".
Definition second_url : string := "https://www.nur.cn/news/2.shtml".

(** the record [extract] makes of [article_page] at the first reading of
    the clock *)
Definition head_record (u : string) : ArticleRecord :=
  {| url := u; title := "Head"; content := "Body";
     crawl_time := "T"; content_length := 4 |}.

(** an article, the same article again, a page outside [/news/] and an
    article page without the two elements *)
Definition mixed_stream : list CrawlResult :=
  [ page first_url true article_page;
    page first_url true article_page;
    page "https://www.nur.cn/about.html" true article_page;
    page second_url true blank_page ].

(** a directory that holds the dataset file of an earlier run under the
    name the clock will give the next aggregate file *)
Definition clashing_world : World :=
  {| files := {[ "nur_dataset_D1.json" :=
                   JsonFile (aggregate_json "T0" [head_record first_url]) ]};
     ticks := 0;
     stdout := [] |}.

Definition two_articles : list CrawlResult :=
  [ page first_url true article_page;
    page second_url true article_page ].

(** a directory with two damaged entries and two dataset files *)
Definition damaged_directory : gmap string file :=
  {[ "notes.json" := TextFile "not a document";
     "folder.json" := Unreadable;
     "half.json" :=
       JsonFile (JObj [("articles",
                        JArr [JObj [("url", JStr "u1")]; JNum 7; JStr "u2"])]);
     "good.json" := JsonFile (aggregate_json "T0" [head_record first_url]) ]}.

End Sample.

(** * Properties *)

(** ** Strings *)

Module PyStrFacts.
Import PyStr.

Lemma startswith_spec s p :
  startswith s p = true ↔ ∃ rest, s = p +:+ rest.
Proof.
  revert s; induction p as [|a p IH]; intros s; simpl.
  - split; [intros _; by exists s | done].
  - destruct s as [|b s]; simpl.
    + split; [done | intros [rest Hr]; discriminate].
    + rewrite andb_true_iff, IH. split.
      * intros [Hab [rest ->]]. apply Ascii.eqb_eq in Hab as ->. by exists rest.
      * intros [rest Hr]. injection Hr as -> ->.
        split; [apply Ascii.eqb_refl | by exists rest].
Qed.

Lemma contains_spec sub s :
  contains sub s = true ↔ ∃ pre post, s = pre +:+ sub +:+ post.
Proof.
  induction s as [|c s IH]; simpl.
  - rewrite orb_false_r, startswith_spec. split.
    + intros [rest Hr]. by exists EmptyString, rest.
    + intros [[|c pre] [post Hp]]; [by exists post | discriminate].
  - rewrite orb_true_iff, startswith_spec, IH. split.
    + intros [[rest Hr] | (pre & post & ->)].
      * by exists EmptyString, rest.
      * by exists (String c pre), post.
    + intros [[|c' pre] [post Hp]].
      * left. by exists post.
      * right. injection Hp as -> ->. by exists pre, post.
Qed.

Lemma endswith_spec s suf :
  endswith s suf = true ↔ ∃ pre, s = pre +:+ suf.
Proof.
  induction s as [|c s IH]; cbn [endswith].
  - rewrite orb_false_r, String.eqb_eq. split.
    + intros <-. by exists EmptyString.
    + intros [[|c pre] Hp]; [done | discriminate].
  - rewrite orb_true_iff, String.eqb_eq, IH. split.
    + intros [<- | [pre ->]]; [by exists EmptyString | by exists (String c pre)].
    + intros [[|c' pre] Hp]; [by left | right].
      injection Hp as -> ->. by exists pre.
Qed.

Lemma truthy_spec s : truthy s = true ↔ s ≠ EmptyString.
Proof. destruct s; simpl; split; congruence. Qed.

Lemma length_append (s t : string) :
  String.length (s +:+ t) = (String.length s + String.length t)%nat.
Proof. induction s as [|c s IH]; simpl; [done | by rewrite IH]. Qed.

Lemma append_assoc (s t v : string) : (s +:+ t) +:+ v = s +:+ t +:+ v.
Proof.
  induction s as [|c s IH]; [done |].
  change (String c ((s +:+ t) +:+ v) = String c (s +:+ t +:+ v)).
  by rewrite IH.
Qed.

Lemma take_length n s :
  String.length (take n s) = Nat.min n (String.length s).
Proof.
  revert s; induction n as [|n IH]; intros [|c s]; simpl; try done.
  by rewrite IH.
Qed.

Lemma take_get n s i :
  (i < n)%nat → String.get i (take n s) = String.get i s.
Proof.
  revert s i; induction n as [|n IH]; intros [|c s] [|i] Hi; simpl;
    try done; try lia.
  apply IH. lia.
Qed.

Lemma sub_class_length cls r s :
  String.length (sub_class cls r s) = String.length s.
Proof. induction s as [|c s IH]; simpl; [done | by rewrite IH]. Qed.

Lemma sub_class_get cls r s i :
  String.get i (sub_class cls r s)
  = (λ c, if cls c then r else c) <$> String.get i s.
Proof.
  revert i; induction s as [|c s IH]; intros i; simpl; [done |].
  destruct i as [|i]; simpl; [done | apply IH].
Qed.

(** a name with the extension [.txt] does not end with [.json] *)
Lemma txt_is_not_json s : endswith (s +:+ ".txt") ".json" = false.
Proof.
  induction s as [|c s IH]; [done |].
  change (String c s +:+ ".txt") with (String c (s +:+ ".txt")).
  cbn [endswith]. rewrite IH, orb_false_r.
  apply String.eqb_neq. intros Heq.
  assert (Hlen : String.length (String c (s +:+ ".txt")) = 5%nat)
    by (by rewrite Heq).
  cbn [String.length] in Hlen. rewrite length_append in Hlen.
  destruct s; simpl in *; [discriminate | lia].
Qed.

End PyStrFacts.

(** ** Seeding *)

Module SeedFacts.
Import Seed.

Lemma set_add_frame v (V : gset string) :
  set_add v V = (fst (set_add v ∅), V ∪ snd (set_add v ∅)).
Proof.
  destruct v; simpl; f_equal; set_solver.
Qed.

Lemma add_urls_frame items (V : gset string) :
  add_urls items V = (fst (add_urls items ∅), V ∪ snd (add_urls items ∅)).
Proof.
  revert V; induction items as [|a items IH]; intros V; simpl.
  - f_equal; set_solver.
  - destruct (subscript a "url") as [u|e]; [|f_equal; set_solver].
    rewrite (set_add_frame u V).
    destruct (set_add u ∅) as [[[]|e] W]; simpl.
    + rewrite (IH (V ∪ W)), (IH W). simpl. f_equal. set_solver.
    + done.
Qed.

Lemma try_body_frame f (V : gset string) :
  snd (try_body f V) = V ∪ urls_in f.
Proof.
  unfold urls_in, try_body.
  destruct (json_load f) as [data|e]; [|set_solver].
  destruct (has_articles data) as [[|]|e]; [|set_solver..].
  destruct (subscript data "articles") as [arts|e]; [|set_solver].
  destruct (iterate arts) as [items|e]; [|set_solver].
  by rewrite (add_urls_frame items V).
Qed.

Lemma visit_entry_returns entry (V : gset string) :
  fst (visit_entry entry V) = Returned tt.
Proof. unfold visit_entry. by destruct (PyStr.endswith _ _). Qed.

Lemma visit_entry_visited entry (V : gset string) :
  snd (visit_entry entry V)
  = if PyStr.endswith (fst entry) ".json" then V ∪ urls_in (snd entry) else V.
Proof.
  unfold visit_entry. destruct (PyStr.endswith _ _); [|done].
  apply try_body_frame.
Qed.

Lemma for_each_returns entries (V : gset string) :
  fst (for_each entries V) = Returned tt.
Proof.
  revert V; induction entries as [|entry entries IH]; intros V; simpl; [done |].
  pose proof (visit_entry_returns entry V) as Hr.
  destruct (visit_entry entry V) as [[[]|e] W]; [apply IH | discriminate].
Qed.

Lemma elem_of_for_each entries (V : gset string) x :
  x ∈ snd (for_each entries V)
  ↔ x ∈ V ∨ ∃ n f, (n, f) ∈ entries
                   ∧ PyStr.endswith n ".json" = true ∧ x ∈ urls_in f.
Proof.
  revert V; induction entries as [|[n f] entries IH]; intros V; simpl.
  - split; [by left | intros [? | (? & ? & H & _)]; [done | by inversion H]].
  - pose proof (visit_entry_returns (n, f) V) as Hr.
    pose proof (visit_entry_visited (n, f) V) as Hv.
    destruct (visit_entry (n, f) V) as [[[]|e] W]; [|discriminate].
    simpl in Hv. rewrite IH, Hv. clear IH Hr Hv. split.
    + intros [HW | (n' & f' & Hin & Hj & Hx)].
      * destruct (PyStr.endswith n ".json") eqn:Hn; [|by left].
        apply elem_of_union in HW as [? | ?]; [by left | right].
        exists n, f. split; [left | done].
      * right. exists n', f'. split; [by right | done].
    + intros [HV | (n' & f' & Hin & Hj & Hx)].
      * left. destruct (PyStr.endswith n ".json"); set_solver.
      * apply elem_of_cons in Hin as [Heq | Hin].
        -- injection Heq as -> ->. left. rewrite Hj. set_solver.
        -- right. by exists n', f'.
Qed.

(** The ledger after seeding: what the extractor held, and the URLs of
    every entry of the directory whose name ends with [.json]. *)
Lemma elem_of_seeded self (dir : gmap string file) x :
  x ∈ visited_urls (snd (load_existing_urls self dir))
  ↔ x ∈ visited_urls self
    ∨ ∃ n f, dir !! n = Some f
             ∧ PyStr.endswith n ".json" = true ∧ x ∈ urls_in f.
Proof.
  unfold load_existing_urls, listdir. simpl. rewrite elem_of_for_each.
  by setoid_rewrite elem_of_map_to_list.
Qed.

Lemma add_urls_listed arts urls :
  Forall2 (λ a u, jget "url" a = Some (JStr u)) arts urls →
  add_urls arts ∅ = (Returned tt, list_to_set urls).
Proof.
  induction 1 as [|a u arts urls Hau _ IH]; simpl; [done |].
  destruct a; try discriminate. simpl in Hau. unfold subscript.
  rewrite Hau. simpl.
  rewrite add_urls_frame, IH. simpl. f_equal. set_solver.
Qed.

Lemma urls_in_listed urls f :
  lists_urls urls f → urls_in f = list_to_set urls.
Proof.
  intros (members & arts & -> & Hm & Hall).
  unfold urls_in, try_body. simpl. rewrite Hm. simpl.
  by rewrite (add_urls_listed _ _ Hall).
Qed.

Lemma aggregate_lists_urls date data :
  lists_urls (map url data) (JsonFile (aggregate_json date data)).
Proof.
  exists [ ("source", JStr "https://www.nur.cn/");
           ("crawl_date", JStr date);
           ("total_articles", JNum (Z.of_nat (length data)));
           ("articles", JArr (map article_json data)) ],
         (map article_json data).
  split; [done |]. split; [done |].
  induction data as [|d data IH]; simpl; by constructor.
Qed.

End SeedFacts.

(** ** The loop *)

Section LoopFacts.

Context (Tag : Type).
Context (soup_find : string -> string -> string -> option Tag).
Context (get_text : string -> Tag -> string).
Context (now : nat -> datetime).

Local Abbreviation page_title := (page_title Tag soup_find get_text).
Local Abbreviation page_content := (page_content Tag soup_find get_text).
Local Abbreviation extract_content := (extract_content Tag soup_find get_text now).
Local Abbreviation body := (body Tag soup_find get_text now).
Local Abbreviation step := (step Tag soup_find get_text now).
Local Abbreviation run_loop := (run_loop Tag soup_find get_text now).
Local Abbreviation iteration := (iteration Tag soup_find get_text now).
Local Abbreviation crawl_state := (crawl_state Tag soup_find get_text now).
Local Abbreviation deep_crawl_nur := (deep_crawl_nur Tag soup_find get_text now).

(** [extract_content] answers [None] or a record of the page, and reads
    the clock in the second case only. *)
Lemma extract_content_cases html u w :
  (extract_content html u w = (None, w)
   ∧ (html = EmptyString
      ∨ (page_title html = EmptyString ∧ page_content html = EmptyString)))
  ∨ (html ≠ EmptyString
     ∧ (page_title html ≠ EmptyString ∨ page_content html ≠ EmptyString)
     ∧ extract_content html u w
       = (Some {| url := u;
                  title := page_title html;
                  content := page_content html;
                  crawl_time := isoformat (now (ticks w));
                  content_length := String.length (page_content html) |},
          advance w)).
Proof.
  unfold extract_content.
  destruct html as [|c html]; [left; split; [done | by left] |].
  cbn [PyStr.truthy negb].
  destruct (page_title _) as [|a t] eqn:Ht.
  - destruct (page_content _) as [|b p] eqn:Hp.
    + left. split; [done | by right].
    + right. split; [done |]. split; [by right | done].
  - right. split; [done |]. split; [by left | done].
Qed.

Lemma step_result_count st r :
  result_count (step st r) = S (result_count st).
Proof.
  unfold step, body. simpl.
  repeat (match goal with
          | |- context [if ?b then _ else _] => destruct b
          | |- context [let '(_, _) := ?p in _] => destruct p
          | |- context [match ?o with Some _ => _ | None => _ end] => destruct o
          end; simpl); reflexivity.
Qed.

Lemma save_single_txt_files self d w :
  files (snd (save_single_txt self d w)) = txt_written d (files w)
  ∧ ticks (snd (save_single_txt self d w)) = ticks w.
Proof.
  unfold save_single_txt, txt_written. by destruct (PyStr.truthy (title d)).
Qed.

(** Every iteration goes one of the four ways. *)
Lemma step_iteration st r : iteration st r (step st r).
Proof.
  unfold step, body.
  destruct (accepted r) eqn:Hacc; pose proof Hacc as Hr; unfold accepted in Hr.
  - repeat (apply andb_true_iff in Hr as [Hr ?]).
    repeat match goal with H : _ = true |- _ => rewrite H; clear H end.
    cbn [andb extractor]. unfold is_duplicate.
    destruct (bool_decide_reflect (r_url r ∈ visited_urls (extractor st)))
      as [Hin | Hout].
    + by apply iter_duplicate.
    + cbn [world].
      destruct (extract_content_cases (r_html r) (r_url r) (world st))
        as [[He _] | (_ & _ & He)]; rewrite He.
      * cbn [result_count]. destruct (_ =? _)%nat; by apply iter_empty.
      * match goal with
        | |- context [save_single_txt ?ex ?d ?w] =>
            pose proof (save_single_txt_files ex d w) as [Hf Ht];
            destruct (save_single_txt ex d w) as [txt w']
        end.
        simpl in Hf, Ht.
        cbn [result_count]; destruct (_ =? _)%nat; destruct (_ =? _)%nat;
          by eapply iter_captured.
  - replace (r_success r && PyStr.truthy (r_html r)) with
      (negb (PyStr.contains "/news/" (r_url r)
             && PyStr.endswith (r_url r) ".shtml")
       && (r_success r && PyStr.truthy (r_html r)))
      by (destruct (r_success r), (PyStr.truthy _), (PyStr.contains _ _),
            (PyStr.endswith _ _); done).
    destruct (PyStr.contains _ _ && PyStr.endswith _ _),
      (r_success r && PyStr.truthy _); simpl;
      destruct (_ =? _)%nat; by apply iter_rejected.
Qed.

Lemma run_loop_app st s1 s2 :
  run_loop st (s1 ++ s2) = run_loop (run_loop st s1) s2.
Proof. apply foldl_app. Qed.

Lemma run_loop_snoc st s r : run_loop st (s ++ [r]) = step (run_loop st s) r.
Proof. by rewrite run_loop_app. Qed.

(** An invariant of the iterations is an invariant of the loop. *)
Lemma run_loop_invariant (P : Loop → Prop) st s :
  P st →
  (∀ st' r, r ∈ s → P st' → P (step st' r)) →
  P (run_loop st s).
Proof.
  revert st; induction s as [|r s IH]; intros st H0 Hstep; [done |].
  apply IH.
  - apply Hstep; [left | done].
  - intros st' r' Hin. apply Hstep. by right.
Qed.

Lemma step_visited st r :
  visited_urls (extractor (step st r))
  = if accepted r then {[r_url r]} ∪ visited_urls (extractor st)
    else visited_urls (extractor st).
Proof.
  destruct (step_iteration st r) as
    [Ha He _ _ _ _ _ | Ha Hin He _ _ _ _
     | Ha _ _ _ _ Hv _ _ _ _ _ | d Ha _ _ _ _ Hv _ _ _ _ _];
    rewrite Ha; try done; rewrite He; [done | set_solver].
Qed.

(** The ledger after the loop: the ledger before it and the URL of every
    page result that passed the filter. *)
Lemma elem_of_visited_run_loop st s x :
  x ∈ visited_urls (extractor (run_loop st s))
  ↔ x ∈ visited_urls (extractor st)
    ∨ ∃ r, r ∈ s ∧ accepted r = true ∧ r_url r = x.
Proof.
  revert st; induction s as [|r s IH]; intros st.
  - simpl. split; [by left | intros [? | (r & Hr & _)]; [done | by inversion Hr]].
  - change (run_loop st (r :: s)) with (run_loop (step st r) s).
    rewrite IH, step_visited. split.
    + intros [Hx | (r' & Hin & Ha & Hu)].
      * destruct (accepted r) eqn:Ha; [|by left].
        apply elem_of_union in Hx as [Hx | Hx]; [|by left].
        apply elem_of_singleton in Hx as ->. right. exists r.
        split; [left | done].
      * right. exists r'. split; [by right | done].
    + intros [Hx | (r' & Hin & Ha & Hu)].
      * left. destruct (accepted r); set_solver.
      * apply elem_of_cons in Hin as [-> | Hin].
        -- left. rewrite Ha. set_solver.
        -- right. by exists r'.
Qed.

Lemma visited_run_loop_mono st s :
  visited_urls (extractor st) ⊆ visited_urls (extractor (run_loop st s)).
Proof. intros x Hx. apply elem_of_visited_run_loop. by left. Qed.

(** The run buffer only grows. *)
Lemma step_dataset_prefix st r :
  ∃ new, dataset (extractor (step st r)) = dataset (extractor st) ++ new.
Proof.
  destruct (step_iteration st r) as
    [_ He _ _ _ _ _ | _ _ He _ _ _ _
     | _ _ _ Hd _ _ _ _ _ _ _ | d _ _ _ Hd _ _ _ _ _ _ _].
  - exists []. by rewrite He, app_nil_r.
  - exists []. by rewrite He, app_nil_r.
  - exists []. by rewrite Hd, app_nil_r.
  - by exists [d].
Qed.

Lemma run_loop_dataset_prefix st s :
  ∃ new, dataset (extractor (run_loop st s)) = dataset (extractor st) ++ new.
Proof.
  revert st; induction s as [|r s IH]; intros st.
  - exists []. by rewrite app_nil_r.
  - change (run_loop st (r :: s)) with (run_loop (step st r) s).
    destruct (IH (step st r)) as [new2 ->].
    destruct (step_dataset_prefix st r) as [new1 ->].
    exists (new1 ++ new2). by rewrite app_assoc.
Qed.

Lemma run_loop_result_count st s :
  result_count (run_loop st s) = (result_count st + length s)%nat.
Proof.
  revert st; induction s as [|r s IH]; intros st; simpl; [lia |].
  change (foldl step (step st r) s) with (run_loop (step st r) s).
  rewrite IH, step_result_count. lia.
Qed.

Lemma extract_content_record html u w d w' :
  extract_content html u w = (Some d, w') →
  url d = u
  ∧ title d = page_title html
  ∧ content d = page_content html
  ∧ content_length d = String.length (content d)
  ∧ crawl_time d = isoformat (now (ticks w))
  ∧ html ≠ EmptyString
  ∧ (title d ≠ EmptyString ∨ content d ≠ EmptyString).
Proof.
  destruct (extract_content_cases html u w) as [[-> _] | (Hh & Hne & ->)];
    [done |].
  intros [= <- _]. simpl. by repeat split.
Qed.

(** Whether a page yields a record depends on its markup only. *)
Lemma extract_content_deterministic html u w u' w' :
  fst (extract_content html u w) = None ↔
  fst (extract_content html u' w') = None.
Proof.
  destruct (extract_content_cases html u w) as [[-> H] | (Hh & Hne & ->)],
    (extract_content_cases html u' w') as [[-> H'] | (Hh' & Hne' & ->)];
    simpl; try done.
  - destruct H as [-> | [Ht Hp]]; [done | by destruct Hne' as [? | ?]].
  - destruct H' as [-> | [Ht Hp]]; [done | by destruct Hne as [? | ?]].
Qed.

Lemma step_counts st r :
  (success_count (step st r) + length (dataset (extractor st))
   = success_count st + length (dataset (extractor (step st r))))%nat.
Proof.
  destruct (step_iteration st r) as
    [_ He _ _ Hs _ _ | _ _ He _ Hs _ _
     | _ _ _ Hd _ _ _ _ Hs _ _ | d _ _ _ Hd _ _ _ _ Hs _ _];
    rewrite Hs; try (by rewrite He); rewrite Hd; [done |].
  rewrite length_app. simpl. lia.
Qed.

Lemma run_loop_counts st s :
  (success_count (run_loop st s) + length (dataset (extractor st))
   = success_count st + length (dataset (extractor (run_loop st s))))%nat.
Proof.
  revert st; induction s as [|r s IH]; intros st; [done |].
  change (run_loop st (r :: s)) with (run_loop (step st r) s).
  pose proof (IH (step st r)). pose proof (step_counts st r). lia.
Qed.

Lemma step_consistent st r : consistent st → consistent (step st r).
Proof.
  intros (Hnd & Hdv & Hnc & Hcv & Hlen).
  pose proof (step_visited st r) as Hv.
  destruct (step_iteration st r) as
    [Ha He _ _ _ _ Hc | Ha _ He _ _ _ Hc
     | Ha Hout _ Hd _ _ _ _ _ _ Hc | d Ha Hout Hx Hd _ _ _ _ _ _ Hc];
    rewrite Ha in Hv; unfold consistent; rewrite Hv, Hc.
  - by rewrite He.
  - rewrite He. repeat split; try done; set_solver.
  - rewrite Hd, map_app, NoDup_app. repeat split; try done.
    + set_solver.
    + simpl. intros u Hu ->%list_elem_of_singleton.
      apply list_elem_of_fmap in Hu as (c & Heq & Hin).
      apply Hout. rewrite Heq. by apply Hcv.
    + apply NoDup_singleton.
    + intros c [Hin | ->%list_elem_of_singleton]%elem_of_app; set_solver.
  - apply extract_content_record in Hx as (Hu & _ & _ & Hl & _).
    rewrite Hd, !map_app, !NoDup_app. simpl. repeat split; try done.
    + intros u' Hu' ->%list_elem_of_singleton.
      apply list_elem_of_fmap in Hu' as (d' & Heq & Hin).
      apply Hout. rewrite <- Hu, Heq. by apply Hdv.
    + apply NoDup_singleton.
    + intros d' [Hin | ->%list_elem_of_singleton]%elem_of_app; set_solver.
    + intros u' Hu' ->%list_elem_of_singleton.
      apply list_elem_of_fmap in Hu' as (c & Heq & Hin).
      apply Hout. rewrite Heq. by apply Hcv.
    + apply NoDup_singleton.
    + intros c [Hin | ->%list_elem_of_singleton]%elem_of_app; set_solver.
    + intros d' [Hin | ->%list_elem_of_singleton]%elem_of_app; auto.
Qed.

Lemma run_loop_consistent st s : consistent st → consistent (run_loop st s).
Proof.
  intros H. apply run_loop_invariant; [done |].
  intros st' r _. apply step_consistent.
Qed.

(** Where the calls of the extractor come from. *)
Lemma calls_run_loop st s c :
  c ∈ calls (run_loop st s) →
  c ∈ calls st
  ∨ ((snd c ∉ visited_urls (extractor st))
     ∧ ∃ r, r ∈ s ∧ accepted r = true ∧ c = (r_html r, r_url r)).
Proof.
  revert st; induction s as [|r s IH]; intros st; [by left |].
  change (run_loop st (r :: s)) with (run_loop (step st r) s).
  intros [Hin | (Hout & r' & Hr' & Ha' & ->)]%IH.
  - destruct (step_iteration st r) as
      [_ _ _ _ _ _ Hc | _ _ _ _ _ _ Hc
       | Ha Hout _ _ _ _ _ _ _ _ Hc | d Ha Hout _ _ _ _ _ _ _ _ Hc];
      rewrite Hc in Hin; try (by left);
      (apply elem_of_app in Hin as [? | ->%list_elem_of_singleton];
       [by left | right; split; [done | exists r; split; [left | done]]]).
  - right. split.
    + intros Hin. apply Hout. rewrite step_visited.
      destruct (accepted r); set_solver.
    + exists r'. split; [by right | done].
Qed.

(** Where the records of the run buffer come from. *)
Lemma dataset_run_loop st s d :
  d ∈ dataset (extractor (run_loop st s)) →
  d ∈ dataset (extractor st)
  ∨ ((url d ∉ visited_urls (extractor st))
     ∧ ∃ r w, r ∈ s ∧ accepted r = true ∧ url d = r_url r
              ∧ fst (extract_content (r_html r) (r_url r) w) = Some d).
Proof.
  revert st; induction s as [|r s IH]; intros st; [by left |].
  change (run_loop st (r :: s)) with (run_loop (step st r) s).
  intros [Hin | (Hout & r' & w & Hr' & Ha' & Hu & Hx)]%IH.
  - destruct (step_iteration st r) as
      [_ He _ _ _ _ _ | _ _ He _ _ _ _
       | _ _ _ Hd _ _ _ _ _ _ _ | d' Ha Hout Hx Hd _ _ _ _ _ _ _];
      try (left; by rewrite <- ?He, <- ?Hd).
    rewrite Hd in Hin.
    apply elem_of_app in Hin as [? | ->%list_elem_of_singleton]; [by left |].
    pose proof (extract_content_record _ _ _ _ _ Hx) as (Hu & _).
    right. split; [by rewrite Hu |].
    exists r, (world st). split; [left |]. by rewrite Hx.
  - right. split.
    + intros Hin. apply Hout. rewrite step_visited.
      destruct (accepted r); set_solver.
    + exists r', w. split; [by right | done].
Qed.

(** The loop writes no entry whose name ends with [.json]. *)
Lemma txt_written_json d (dir : gmap string file) n :
  PyStr.endswith n ".json" = true → txt_written d dir !! n = dir !! n.
Proof.
  intros Hn. unfold txt_written. destruct (PyStr.truthy (title d)); [|done].
  apply lookup_insert_ne. intros <-. unfold txt_name in Hn.
  by rewrite PyStrFacts.txt_is_not_json in Hn.
Qed.

Lemma run_loop_json_files st s n :
  PyStr.endswith n ".json" = true →
  files (world (run_loop st s)) !! n = files (world st) !! n.
Proof.
  intros Hn. apply (run_loop_invariant
    (λ st', files (world st') !! n = files (world st) !! n)); [done |].
  intros st' r _ <-.
  destruct (step_iteration st' r) as
    [_ _ Hf _ _ _ _ | _ _ _ Hw _ _ _
     | _ _ _ _ _ _ Hf _ _ _ _ | d _ _ _ _ _ _ Hf _ _ _ _];
    rewrite ?Hf, ?Hw; try done.
  by apply txt_written_json.
Qed.

(** A page whose URL is in the ledger is skipped and counted. *)
Lemma step_duplicate st r :
  accepted r = true →
  r_url r ∈ visited_urls (extractor st) →
  extractor (step st r) = extractor st
  ∧ world (step st r) = world st
  ∧ calls (step st r) = calls st
  ∧ success_count (step st r) = success_count st
  ∧ skip_count (step st r) = S (skip_count st).
Proof.
  intros Ha Hin.
  destruct (step_iteration st r) as
    [Ha' _ _ _ _ _ _ | _ _ He Hw Hs Hk Hc
     | _ Hout _ _ _ _ _ _ _ _ _ | d _ Hout _ _ _ _ _ _ _ _ _];
    [congruence | done | done..].
Qed.

(** A page that fails the filter changes neither the extractor nor the
    calls of [extract_content]. *)
Lemma step_rejected st r :
  accepted r = false →
  extractor (step st r) = extractor st
  ∧ calls (step st r) = calls st
  ∧ success_count (step st r) = success_count st
  ∧ skip_count (step st r) = skip_count st.
Proof.
  intros Ha.
  destruct (step_iteration st r) as
    [_ He _ _ Hs Hk Hc | Ha' _ _ _ _ _ _
     | Ha' _ _ _ _ _ _ _ _ _ _ | d Ha' _ _ _ _ _ _ _ _ _ _];
    [done | congruence..].
Qed.

Lemma accepted_spec r :
  accepted r = true
  ↔ r_success r = true
    ∧ r_html r ≠ EmptyString
    ∧ (∃ pre post, r_url r = pre +:+ "/news/" +:+ post)
    ∧ (∃ pre, r_url r = pre +:+ ".shtml").
Proof.
  unfold accepted.
  rewrite !andb_true_iff, PyStrFacts.truthy_spec,
    PyStrFacts.contains_spec, PyStrFacts.endswith_spec.
  tauto.
Qed.

(** Replaying a stream against a ledger that holds every URL the first
    pass captured, and all the first pass started with, captures nothing. *)
Lemma replay_captures_nothing s st1 st2 :
  visited_urls (extractor st1) ⊆ visited_urls (extractor st2) →
  (∀ d, d ∈ dataset (extractor (run_loop st1 s)) →
        url d ∈ visited_urls (extractor st2)) →
  dataset (extractor (run_loop st2 s)) = dataset (extractor st2)
  ∧ success_count (run_loop st2 s) = success_count st2.
Proof.
  revert st1 st2; induction s as [|r s IH]; intros st1 st2 Hsub Hcap; [done |].
  change (run_loop st1 (r :: s)) with (run_loop (step st1 r) s) in Hcap.
  change (run_loop st2 (r :: s)) with (run_loop (step st2 r) s).
  destruct (IH (step st1 r) (step st2 r)) as [-> ->].
  - rewrite !step_visited. destruct (accepted r); set_solver.
  - intros d Hd. rewrite step_visited.
    destruct (accepted r); [apply elem_of_union; right |]; by apply Hcap.
  - destruct (step_iteration st2 r) as
      [_ He _ _ Hs _ _ | _ _ He _ Hs _ _
       | _ _ _ Hd _ _ _ _ Hs _ _ | d2 Ha Hout2 Hx2 _ _ _ _ _ _ _ _];
      try (by rewrite ?He, ?Hd, Hs).
    exfalso.
    destruct (step_iteration st1 r) as
      [Ha' _ _ _ _ _ _ | _ Hin _ _ _ _ _
       | _ _ Hx1 _ _ _ _ _ _ _ _ | d1 _ _ Hx1 Hd1 _ _ _ _ _ _ _].
    + congruence.
    + by apply Hout2, Hsub.
    + assert (fst (extract_content (r_html r) (r_url r) (world st2)) = None)
        as Hnone.
      { apply (extract_content_deterministic _ (r_url r) (world st1)).
        by rewrite Hx1. }
      by rewrite Hx2 in Hnone.
    + apply extract_content_record in Hx1 as (Hu & _).
      apply Hout2. rewrite <- Hu. apply Hcap.
      destruct (run_loop_dataset_prefix (step st1 r) s) as [new ->].
      rewrite Hd1. set_solver.
Qed.

End LoopFacts.

(** ** Finalization and the whole run *)

Section RunFacts.

Context (Tag : Type).
Context (soup_find : string -> string -> string -> option Tag).
Context (get_text : string -> Tag -> string).
Context (now : nat -> datetime).

Local Abbreviation extract_content := (extract_content Tag soup_find get_text now).
Local Abbreviation step := (step Tag soup_find get_text now).
Local Abbreviation run_loop := (run_loop Tag soup_find get_text now).
Local Abbreviation streamed := (streamed Tag soup_find get_text now).
Local Abbreviation crawl_state := (crawl_state Tag soup_find get_text now).
Local Abbreviation deep_crawl_nur := (deep_crawl_nur Tag soup_find get_text now).
Local Abbreviation save_final_dataset := (save_final_dataset now).
Local Abbreviation finish := (finish now).

(** the aggregate document of the run that ends in state [st] *)
Local Abbreviation aggregate_of st :=
  (aggregate_json (isoformat (now (S (ticks (world st)))))
     (dataset (extractor st))).

Local Abbreviation aggregate_name_of st :=
  (dataset_name (strftime_YmdHMS (now (ticks (world st))))).

Lemma finish_returned st : fst (finish st) = dataset (extractor st).
Proof. unfold finish. by destruct (save_final_dataset _ _ _). Qed.

Lemma finish_files st :
  files (snd (finish st))
  = match dataset (extractor st) with
    | [] => files (world st)
    | _ :: _ =>
        <[aggregate_name_of st := JsonFile (aggregate_of st)]> (files (world st))
    end.
Proof. unfold finish, save_final_dataset. by destruct (dataset _). Qed.

Lemma finish_stdout st :
  stdout (snd (finish st))
  = stdout (world st)
    ++ [ OutBlankRule; OutFinished; OutTotalPages (result_count st);
         OutExtracted (success_count st); OutSkipped (skip_count st) ]
    ++ match dataset (extractor st) with
       | [] => [OutNothingToSave; OutDatasetAt None]
       | _ :: _ =>
           [OutDatasetAt
              (Some (path_join output_directory (aggregate_name_of st)))]
       end.
Proof.
  unfold finish, save_final_dataset.
  destruct (dataset _); simpl; by rewrite <- !app_assoc.
Qed.

(** [deep_crawl_nur] returns: seeding never raises. *)
Lemma deep_crawl_nur_unfold max_pages max_depth stream w :
  deep_crawl_nur max_pages max_depth stream w
  = (Returned (dataset (extractor (crawl_state max_pages max_depth stream w))),
     snd (finish (crawl_state max_pages max_depth stream w))).
Proof.
  unfold deep_crawl_nur, crawl_state, seeded.
  pose proof (SeedFacts.for_each_returns (listdir (files w)) ∅) as Hr.
  unfold load_existing_urls. simpl in *. rewrite Hr.
  match goal with |- context [finish ?st] =>
    pose proof (finish_returned st) as Hf; destruct (finish st) end.
  simpl in Hf. by rewrite Hf.
Qed.

Lemma crawl_state_snoc max_pages max_depth stream r w :
  crawl_state max_pages max_depth (stream ++ [r]) w
  = step (crawl_state max_pages max_depth stream w) r.
Proof. apply run_loop_snoc. Qed.

Lemma crawl_state_consistent max_pages max_depth stream w :
  consistent (crawl_state max_pages max_depth stream w).
Proof.
  apply run_loop_consistent. unfold consistent. simpl.
  repeat split; try apply NoDup_nil_2; intros ? Hin; by inversion Hin.
Qed.

Lemma crawl_state_success_count max_pages max_depth stream w :
  success_count (crawl_state max_pages max_depth stream w)
  = length (dataset (extractor (crawl_state max_pages max_depth stream w))).
Proof.
  pose proof (run_loop_counts Tag soup_find get_text now
    (loop_entry (seeded w) (announce max_pages max_depth (seeded w) w)) stream)
    as H.
  simpl in H. unfold crawl_state, streamed. lia.
Qed.

Lemma dataset_name_json ts : PyStr.endswith (dataset_name ts) ".json" = true.
Proof.
  apply PyStrFacts.endswith_spec. exists ("nur_dataset_" +:+ ts).
  unfold dataset_name. by rewrite PyStrFacts.append_assoc.
Qed.

Lemma elem_of_seeded_world w x :
  x ∈ visited_urls (seeded w)
  ↔ ∃ n f, files w !! n = Some f
           ∧ PyStr.endswith n ".json" = true ∧ x ∈ urls_in f.
Proof.
  unfold seeded. rewrite SeedFacts.elem_of_seeded. simpl. set_solver.
Qed.

(** The URLs of the run buffer are in the aggregate file of the run,
    whence seeding takes them. *)
Lemma captured_urls_seed_next_run max_pages max_depth stream w d :
  d ∈ dataset (extractor (crawl_state max_pages max_depth stream w)) →
  url d ∈ visited_urls
            (seeded (snd (deep_crawl_nur max_pages max_depth stream w))).
Proof.
  intros Hd. apply elem_of_seeded_world.
  rewrite deep_crawl_nur_unfold. cbn [snd]. rewrite finish_files.
  destruct (dataset _) as [|d0 ds] eqn:Heq; [by inversion Hd |].
  eexists _, _. split; [apply lookup_insert_eq |].
  split; [apply dataset_name_json |].
  rewrite (SeedFacts.urls_in_listed _ _ (SeedFacts.aggregate_lists_urls _ _)).
  apply elem_of_list_to_set, list_elem_of_fmap. by exists d.
Qed.

(** A run whose aggregate file takes an unused name leaves the dataset
    files of earlier runs in place. *)
Lemma history_is_kept max_pages max_depth stream w x :
  files w !! dataset_name (strftime_YmdHMS
     (now (ticks (world (crawl_state max_pages max_depth stream w))))) = None →
  x ∈ visited_urls (seeded w) →
  x ∈ visited_urls
        (seeded (snd (deep_crawl_nur max_pages max_depth stream w))).
Proof.
  intros Hfresh (n & f & Hn & Hj & Hx)%elem_of_seeded_world.
  apply elem_of_seeded_world. exists n, f. split; [|done].
  rewrite deep_crawl_nur_unfold. cbn [snd]. rewrite finish_files.
  assert (files (world (crawl_state max_pages max_depth stream w)) !! n
          = Some f) as Hkept.
  { unfold crawl_state, streamed.
    by rewrite (run_loop_json_files Tag soup_find get_text now _ _ n Hj). }
  destruct (dataset _); [done |].
  rewrite lookup_insert_ne; [done |]. intros Heq. congruence.
Qed.

End RunFacts.

(** * The specification, claim by claim *)

(** C7 — Seeding is best-effort.  [load_existing_urls] never raises; an
    entry whose [try] body raises (an unreadable file, text that is not
    JSON, a document of another shape) is passed over and the loop goes on
    with the remaining entries, keeping the ledger it had; and the URLs of
    every well-formed dataset file of the directory are in the ledger when
    seeding is over, whatever the other entries hold. *)
Theorem seeding_skips_malformed_files
    (self : NurContentExtractor) (dir : gmap string file) :
  fst (load_existing_urls self dir) = Returned tt
  ∧ (∀ n f e (V : gset string) rest,
        fst (Seed.try_body f V) = Raised e →
        fst (Seed.visit_entry (n, f) V) = Returned tt
        ∧ V ⊆ snd (Seed.visit_entry (n, f) V)
        ∧ Seed.for_each ((n, f) :: rest) V
          = Seed.for_each rest (snd (Seed.visit_entry (n, f) V)))
  ∧ (∀ n f urls,
        dir !! n = Some f →
        PyStr.endswith n ".json" = true →
        lists_urls urls f →
        ∀ u, u ∈ urls → u ∈ visited_urls (snd (load_existing_urls self dir))).
Proof.
  split; [apply SeedFacts.for_each_returns |]. split.
  - intros n f e V rest _.
    pose proof (SeedFacts.visit_entry_returns (n, f) V) as Hr.
    pose proof (SeedFacts.visit_entry_visited (n, f) V) as Hv.
    split; [done |]. split.
    + rewrite Hv. destruct (PyStr.endswith _ _); set_solver.
    + cbn [Seed.for_each].
      destruct (Seed.visit_entry (n, f) V) as [[[]|e'] W]; [done | discriminate].
  - intros n f urls Hn Hj Hf u Hu.
    apply SeedFacts.elem_of_seeded. right. exists n, f.
    split; [done |]. split; [done |].
    rewrite (SeedFacts.urls_in_listed urls f Hf). set_solver.
Qed.

Section Claims.

Context (Tag : Type).
Context (soup_find : string -> string -> string -> option Tag).
Context (get_text : string -> Tag -> string).
Context (now : nat -> datetime).

Local Abbreviation page_title := (page_title Tag soup_find get_text).
Local Abbreviation page_content := (page_content Tag soup_find get_text).
Local Abbreviation extract_content := (extract_content Tag soup_find get_text now).
Local Abbreviation step := (step Tag soup_find get_text now).
Local Abbreviation run_loop := (run_loop Tag soup_find get_text now).
Local Abbreviation crawl_state := (crawl_state Tag soup_find get_text now).
Local Abbreviation deep_crawl_nur := (deep_crawl_nur Tag soup_find get_text now).
Local Abbreviation finish := (finish now).

(** C3 — The extraction emptiness rule.  With a parser that finds no
    element in empty markup, [extract_content] returns no record exactly
    when the extracted title and the extracted body are both empty; when
    one of them is not, it returns the record that carries the URL, that
    title and that body. *)
Theorem extraction_emptiness_rule (html u : string) (w : World) :
  (∀ name cls, soup_find EmptyString name cls = None) →
  (fst (extract_content html u w) = None
   ↔ page_title html = EmptyString ∧ page_content html = EmptyString)
  ∧ (page_title html ≠ EmptyString ∨ page_content html ≠ EmptyString →
     ∃ d, fst (extract_content html u w) = Some d
          ∧ url d = u
          ∧ title d = page_title html
          ∧ content d = page_content html).
Proof.
  intros Hempty.
  assert (Hblank : html = EmptyString →
                   page_title html = EmptyString
                   ∧ page_content html = EmptyString).
  { intros ->. unfold page_title, page_content. by rewrite !Hempty. }
  destruct (extract_content_cases Tag soup_find get_text now html u w)
    as [[-> H] | (Hh & Hne & ->)]; simpl.
  - assert (page_title html = EmptyString ∧ page_content html = EmptyString)
      as [Ht Hp] by (destruct H; auto).
    split; [done |]. intros [? | ?]; congruence.
  - split; [split; [done | intros [? ?]; by destruct Hne] |].
    intros _. by eexists.
Qed.

(** C2 — The URL filter guards the extractor.  Every call of
    [extract_content] made by a run has the markup and the URL of a page
    result of the stream whose fetch succeeded, whose markup is not
    empty, whose URL contains [/news/] and ends with [.shtml]; and an
    iteration on a page result that fails one of the four tests makes no
    call. *)
Theorem filter_guards_extractor
    (max_pages max_depth : Z) (stream : list CrawlResult) (w : World) :
  (∀ h u,
      (h, u) ∈ calls (crawl_state max_pages max_depth stream w) →
      ∃ r, r ∈ stream ∧ h = r_html r ∧ u = r_url r
           ∧ r_success r = true
           ∧ r_html r ≠ EmptyString
           ∧ (∃ pre post, r_url r = pre +:+ "/news/" +:+ post)
           ∧ (∃ pre, r_url r = pre +:+ ".shtml"))
  ∧ (∀ st r,
        ¬ (r_success r = true
           ∧ r_html r ≠ EmptyString
           ∧ (∃ pre post, r_url r = pre +:+ "/news/" +:+ post)
           ∧ (∃ pre, r_url r = pre +:+ ".shtml")) →
        calls (step st r) = calls st
        ∧ extractor (step st r) = extractor st).
Proof.
  split.
  - intros h u Hin.
    apply calls_run_loop in Hin as [Hin | (_ & r & Hr & Ha & [= -> ->])];
      [by inversion Hin |].
    exists r. apply accepted_spec in Ha as (? & ? & ? & ?). by repeat split.
  - intros st r Hno.
    destruct (accepted r) eqn:Ha; [by apply accepted_spec in Ha |].
    by destruct (step_rejected Tag soup_find get_text now st r Ha)
      as (-> & -> & _).
Qed.

(** C1 — Dedup within a run.  The records of the run buffer have
    pairwise different URLs, and so have the calls of [extract_content];
    and a page result that passes the filter after an earlier one with
    the same URL did is counted as a skip and changes nothing else: no
    call of the extractor, no record, no file. *)
Theorem no_url_is_captured_twice
    (max_pages max_depth : Z) (stream : list CrawlResult) (w : World) :
  NoDup (map url (dataset (extractor (crawl_state max_pages max_depth stream w))))
  ∧ NoDup (map snd (calls (crawl_state max_pages max_depth stream w)))
  ∧ (∃ returned,
        fst (deep_crawl_nur max_pages max_depth stream w) = Returned returned
        ∧ NoDup (map url returned))
  ∧ (∀ pre r post r0,
        stream = pre ++ r :: post →
        accepted r = true →
        r0 ∈ pre → accepted r0 = true → r_url r0 = r_url r →
        extractor (crawl_state max_pages max_depth (pre ++ [r]) w)
          = extractor (crawl_state max_pages max_depth pre w)
        ∧ world (crawl_state max_pages max_depth (pre ++ [r]) w)
          = world (crawl_state max_pages max_depth pre w)
        ∧ calls (crawl_state max_pages max_depth (pre ++ [r]) w)
          = calls (crawl_state max_pages max_depth pre w)
        ∧ success_count (crawl_state max_pages max_depth (pre ++ [r]) w)
          = success_count (crawl_state max_pages max_depth pre w)
        ∧ skip_count (crawl_state max_pages max_depth (pre ++ [r]) w)
          = S (skip_count (crawl_state max_pages max_depth pre w))).
Proof.
  destruct (crawl_state_consistent Tag soup_find get_text now
              max_pages max_depth stream w) as (Hnd & _ & Hnc & _).
  split; [done |]. split; [done |]. split.
  - rewrite deep_crawl_nur_unfold. by eexists.
  - intros pre r post r0 _ Ha Hr0 Ha0 Hu.
    rewrite crawl_state_snoc. apply step_duplicate; [done |].
    apply elem_of_visited_run_loop. right. by exists r0.
Qed.

(** C10 — The success counter is the length of the run buffer, after
    every prefix of the stream; so the count printed at the end of the
    run is the [total_articles] of the aggregate file the run writes. *)
Theorem success_count_is_buffer_length
    (max_pages max_depth : Z) (stream : list CrawlResult) (w : World) :
  (∀ pre post,
      stream = pre ++ post →
      success_count (crawl_state max_pages max_depth pre w)
      = length (dataset (extractor (crawl_state max_pages max_depth pre w))))
  ∧ (∃ tail,
        stdout (snd (deep_crawl_nur max_pages max_depth stream w))
        = stdout (world (crawl_state max_pages max_depth stream w))
          ++ [ OutBlankRule; OutFinished;
               OutTotalPages (result_count (crawl_state max_pages max_depth stream w));
               OutExtracted (success_count (crawl_state max_pages max_depth stream w));
               OutSkipped (skip_count (crawl_state max_pages max_depth stream w)) ]
          ++ tail)
  ∧ (dataset (extractor (crawl_state max_pages max_depth stream w)) ≠ [] →
     ∃ doc,
       files (snd (deep_crawl_nur max_pages max_depth stream w))
         !! dataset_name (strftime_YmdHMS
              (now (ticks (world (crawl_state max_pages max_depth stream w)))))
       = Some (JsonFile doc)
       ∧ jget "total_articles" doc
         = Some (JNum (Z.of_nat
             (success_count (crawl_state max_pages max_depth stream w))))).
Proof.
  split; [intros pre post _; apply crawl_state_success_count |].
  rewrite deep_crawl_nur_unfold. cbn [snd]. split.
  - rewrite finish_stdout. by eexists.
  - intros Hne. rewrite finish_files, crawl_state_success_count.
    destruct (dataset _) as [|d ds] eqn:Hd; [done |].
    eexists. split; [apply lookup_insert_eq | done].
Qed.

(** C4 — The aggregate file.  When the run buffer is not empty at the
    end of the loop, finalization adds one entry to the directory, the
    aggregate file, in which [total_articles] is the length of the list
    [articles] and every article has the length of its [content] as
    [content_length]; when the run buffer is empty the directory is left
    as the loop left it. *)
Theorem aggregate_file_integrity
    (max_pages max_depth : Z) (stream : list CrawlResult) (w : World) :
  match dataset (extractor (crawl_state max_pages max_depth stream w)) with
  | [] =>
      files (snd (deep_crawl_nur max_pages max_depth stream w))
      = files (world (crawl_state max_pages max_depth stream w))
  | _ :: _ =>
      ∃ doc arts,
        files (snd (deep_crawl_nur max_pages max_depth stream w))
        = <[dataset_name (strftime_YmdHMS
              (now (ticks (world (crawl_state max_pages max_depth stream w)))))
            := JsonFile doc]>
            (files (world (crawl_state max_pages max_depth stream w)))
        ∧ jget "articles" doc = Some (JArr arts)
        ∧ arts = map article_json
                   (dataset (extractor (crawl_state max_pages max_depth stream w)))
        ∧ jget "total_articles" doc = Some (JNum (Z.of_nat (length arts)))
        ∧ Forall (λ a, ∃ c, jget "content" a = Some (JStr c)
                         ∧ jget "content_length" a
                           = Some (JNum (Z.of_nat (String.length c)))) arts
  end.
Proof.
  rewrite deep_crawl_nur_unfold. cbn [snd]. rewrite finish_files.
  destruct (crawl_state_consistent Tag soup_find get_text now
              max_pages max_depth stream w) as (_ & _ & _ & _ & Hlen).
  destruct (dataset _) as [|d ds]; [done |].
  eexists _, _. split; [done |]. split; [done |]. split; [done |].
  split; [by rewrite length_map |].
  apply Forall_forall. intros a (d' & -> & Hin)%list_elem_of_fmap.
  exists (content d'). split; [done |]. simpl. by rewrite (Hlen d' Hin).
Qed.

(** C5 — The incremental writer.  For a record with a title,
    [save_single_txt] writes one entry: its name is a base name followed
    by [.txt], where the base name has the first 50 characters of the
    title (all of them when there are fewer) with every character of the
    illegal class replaced by an underscore, and its text is the title,
    two newlines and the body.  For a record without a title it writes
    nothing; such a record, once captured, is in the run buffer all the
    same, and every record of the run buffer is in the list [articles] of
    the aggregate file of the run. *)
Theorem incremental_writer_contract
    (self : NurContentExtractor) (d : ArticleRecord) (w : World) :
  (title d ≠ EmptyString →
   ∃ base,
     save_single_txt self d w
     = (Some (base +:+ ".txt"),
        write_file (base +:+ ".txt")
          (TextFile (title d +:+ PyStr.newline +:+ PyStr.newline +:+ content d))
          w)
     ∧ String.length base = Nat.min 50 (String.length (title d))
     ∧ ∀ i, (i < String.length base)%nat →
            String.get i base
            = (λ c, if illegal_in_filename c then "_"%char else c)
                <$> String.get i (title d))
  ∧ (title d = EmptyString → save_single_txt self d w = (None, w))
  ∧ (∀ max_pages max_depth stream r w0,
        accepted r = true →
        r_url r ∉ visited_urls
                    (extractor (crawl_state max_pages max_depth stream w0)) →
        fst (extract_content (r_html r) (r_url r)
               (world (crawl_state max_pages max_depth stream w0))) = Some d →
        title d = EmptyString →
        files (world (crawl_state max_pages max_depth (stream ++ [r]) w0))
        = files (world (crawl_state max_pages max_depth stream w0))
        ∧ dataset (extractor (crawl_state max_pages max_depth (stream ++ [r]) w0))
          = dataset (extractor (crawl_state max_pages max_depth stream w0)) ++ [d])
  ∧ (∀ max_pages max_depth stream w0,
        d ∈ dataset (extractor (crawl_state max_pages max_depth stream w0)) →
        ∃ name doc arts,
          files (snd (deep_crawl_nur max_pages max_depth stream w0)) !! name
          = Some (JsonFile doc)
          ∧ jget "articles" doc = Some (JArr arts)
          ∧ article_json d ∈ arts).
Proof.
  split; [|split; [|split]].
  - intros Ht. exists (safe_title_of (title d)).
    unfold save_single_txt. apply PyStrFacts.truthy_spec in Ht as ->.
    split; [by rewrite !PyStrFacts.append_assoc |]. unfold safe_title_of.
    rewrite PyStrFacts.take_length, PyStrFacts.sub_class_length.
    split; [done |]. intros i Hi.
    rewrite PyStrFacts.take_get by lia. apply PyStrFacts.sub_class_get.
  - intros Ht. unfold save_single_txt. by rewrite Ht.
  - intros max_pages max_depth stream r w0 Ha Hout Hx Ht.
    rewrite crawl_state_snoc.
    destruct (step_iteration Tag soup_find get_text now
                (crawl_state max_pages max_depth stream w0) r) as
      [Ha' _ _ _ _ _ _ | _ Hin _ _ _ _ _
       | _ _ Hx' _ _ _ _ _ _ _ _ | d' _ _ Hx' Hd _ _ Hf _ _ _ _].
    + congruence.
    + done.
    + by rewrite Hx' in Hx.
    + rewrite Hx' in Hx. injection Hx as ->.
      rewrite Hf, Hd. unfold txt_written. by rewrite Ht.
  - intros max_pages max_depth stream w0 Hin.
    rewrite deep_crawl_nur_unfold. cbn [snd]. rewrite finish_files.
    destruct (dataset _) as [|d0 ds] eqn:Hd; [by inversion Hin |].
    eexists _, _, _. split; [apply lookup_insert_eq |]. split; [done |].
    apply list_elem_of_fmap. by exists d.
Qed.

(** C8, as the code has it — The ledger is marked before extraction.
    After the loop the ledger holds what seeding put in it and the URL of
    every page result that passed the filter, whether or not its
    extraction yielded a record.  The run buffer is what holds captured
    articles only: each of its records is the extraction of a page
    result of the stream, so a URL whose pages all extract to no record
    has no record in the run buffer. *)
Theorem ledger_marks_before_extraction
    (max_pages max_depth : Z) (stream : list CrawlResult) (w : World) :
  (∀ x,
      x ∈ visited_urls (extractor (crawl_state max_pages max_depth stream w))
      ↔ x ∈ visited_urls (seeded w)
        ∨ ∃ r, r ∈ stream ∧ accepted r = true ∧ r_url r = x)
  ∧ (∀ d,
        d ∈ dataset (extractor (crawl_state max_pages max_depth stream w)) →
        ∃ r w', r ∈ stream ∧ accepted r = true ∧ r_url r = url d
                ∧ fst (extract_content (r_html r) (r_url r) w') = Some d)
  ∧ (∀ u,
        (∀ r w', r ∈ stream → r_url r = u →
                 fst (extract_content (r_html r) u w') = None) →
        u ∉ map url (dataset (extractor (crawl_state max_pages max_depth stream w)))).
Proof.
  assert (Hprov : ∀ d,
    d ∈ dataset (extractor (crawl_state max_pages max_depth stream w)) →
    ∃ r w', r ∈ stream ∧ accepted r = true ∧ r_url r = url d
            ∧ fst (extract_content (r_html r) (r_url r) w') = Some d).
  { intros d [Hin | (_ & r & w' & Hr & Ha & Hu & Hx)]%dataset_run_loop;
      [by inversion Hin |].
    by exists r, w'. }
  split; [intros x; apply elem_of_visited_run_loop |]. split; [done |].
  intros u Hnone (d & -> & Hd)%list_elem_of_fmap.
  destruct (Hprov d Hd) as (r & w' & Hr & _ & Hu & Hx).
  specialize (Hnone r w' Hr Hu). rewrite Hu in Hx. congruence.
Qed.

(** C9, as the code has it — The end of a run.  [deep_crawl_nur] returns
    (it does not raise) and what it returns is the run buffer; the three
    counters are printed, total pages, extractions and skips in this
    order, and the total is the number of page results delivered.  This
    holds for every stream, also when nothing was captured. *)
Theorem run_prints_counters_and_returns_buffer
    (max_pages max_depth : Z) (stream : list CrawlResult) (w : World) :
  fst (deep_crawl_nur max_pages max_depth stream w)
  = Returned (dataset (extractor (crawl_state max_pages max_depth stream w)))
  ∧ result_count (crawl_state max_pages max_depth stream w) = length stream
  ∧ ∃ tail,
      stdout (snd (deep_crawl_nur max_pages max_depth stream w))
      = stdout (world (crawl_state max_pages max_depth stream w))
        ++ [ OutBlankRule; OutFinished;
             OutTotalPages (result_count (crawl_state max_pages max_depth stream w));
             OutExtracted (success_count (crawl_state max_pages max_depth stream w));
             OutSkipped (skip_count (crawl_state max_pages max_depth stream w)) ]
        ++ tail.
Proof.
  rewrite deep_crawl_nur_unfold. cbn [fst snd]. split; [done |]. split.
  - unfold crawl_state, streamed. by rewrite run_loop_result_count.
  - rewrite finish_stdout. by eexists.
Qed.

(** C6, as the code has it — Idempotence.  Let a second run start in the
    world the first run left and receive the same stream.  Every URL
    with a record in the first run buffer is in the seeded ledger of the
    second run; its page results are counted as skips there and no call
    of the extractor is made for it.  If moreover the name of the first
    run's aggregate file was not taken in the directory before the first
    run, the second run captures nothing: it returns the empty list and
    its success counter is zero. *)
Theorem second_run_captures_nothing
    (max_pages max_depth max_pages' max_depth' : Z)
    (stream : list CrawlResult) (w : World) :
  (∀ d,
      d ∈ dataset (extractor (crawl_state max_pages max_depth stream w)) →
      url d ∈ visited_urls
                (seeded (snd (deep_crawl_nur max_pages max_depth stream w)))
      ∧ (∀ h, (h, url d) ∉
                calls (crawl_state max_pages' max_depth' stream
                         (snd (deep_crawl_nur max_pages max_depth stream w))))
      ∧ (∀ pre r post,
            stream = pre ++ r :: post → accepted r = true → r_url r = url d →
            skip_count (crawl_state max_pages' max_depth' (pre ++ [r])
                          (snd (deep_crawl_nur max_pages max_depth stream w)))
            = S (skip_count (crawl_state max_pages' max_depth' pre
                          (snd (deep_crawl_nur max_pages max_depth stream w))))
            ∧ calls (crawl_state max_pages' max_depth' (pre ++ [r])
                          (snd (deep_crawl_nur max_pages max_depth stream w)))
              = calls (crawl_state max_pages' max_depth' pre
                          (snd (deep_crawl_nur max_pages max_depth stream w)))))
  ∧ (files w !! dataset_name (strftime_YmdHMS
        (now (ticks (world (crawl_state max_pages max_depth stream w))))) = None →
     fst (deep_crawl_nur max_pages' max_depth' stream
            (snd (deep_crawl_nur max_pages max_depth stream w)))
     = Returned []
     ∧ success_count
         (crawl_state max_pages' max_depth' stream
            (snd (deep_crawl_nur max_pages max_depth stream w))) = 0%nat).
Proof.
  split.
  - intros d Hd.
    pose proof (captured_urls_seed_next_run Tag soup_find get_text now
                  max_pages max_depth stream w d Hd) as Hseed.
    split; [done |]. split.
    + intros h [Hin | (Hout & _)]%calls_run_loop; [by inversion Hin | done].
    + intros pre r post _ Ha Hu. rewrite crawl_state_snoc.
      destruct (step_duplicate Tag soup_find get_text now
        (crawl_state max_pages' max_depth' pre
           (snd (deep_crawl_nur max_pages max_depth stream w))) r Ha)
        as (_ & _ & Hc & _ & Hk); [|done].
      rewrite Hu. by apply visited_run_loop_mono.
  - intros Hfresh.
    destruct (replay_captures_nothing Tag soup_find get_text now stream
      (loop_entry (seeded w) (announce max_pages max_depth (seeded w) w))
      (loop_entry
         (seeded (snd (deep_crawl_nur max_pages max_depth stream w)))
         (announce max_pages' max_depth'
            (seeded (snd (deep_crawl_nur max_pages max_depth stream w)))
            (snd (deep_crawl_nur max_pages max_depth stream w)))))
      as [Hd Hs].
    + intros x Hx. by apply history_is_kept.
    + intros d Hd. by apply captured_urls_seed_next_run.
    + rewrite (deep_crawl_nur_unfold _ _ _ _ max_pages' max_depth').
      cbn [fst]. split; [f_equal; exact Hd | exact Hs].
Qed.

End Claims.

(** * The claims on concrete runs *)

(** A parser that finds nothing in empty markup, and the rule of C3 on a
    page without the two elements. *)
Lemma extraction_emptiness_rule_witness :
  (∀ name cls, Sample.soup_find EmptyString name cls = None)
  ∧ (fst (Sample.extract Sample.blank_page Sample.second_url Sample.empty_world)
     = None
     ↔ page_title Sample.Tag Sample.soup_find Sample.get_text Sample.blank_page
       = EmptyString
       ∧ page_content Sample.Tag Sample.soup_find Sample.get_text Sample.blank_page
         = EmptyString).
Proof.
  split; [intros name cls; reflexivity |].
  apply (extraction_emptiness_rule Sample.Tag Sample.soup_find Sample.get_text
           Sample.now Sample.blank_page Sample.second_url Sample.empty_world).
  intros name cls; reflexivity.
Defined.

(** C8, as stated, fails: a page that passes the filter and extracts to no
    record has its URL in the ledger after the loop. *)
Lemma blank_page_url_enters_ledger :
  accepted (Sample.page Sample.second_url true Sample.blank_page) = true
  ∧ fst (Sample.extract Sample.blank_page Sample.second_url
           (world (Sample.state [] Sample.empty_world))) = None
  ∧ Sample.second_url
      ∈ visited_urls
          (extractor
             (Sample.state [Sample.page Sample.second_url true Sample.blank_page]
                Sample.empty_world))
  ∧ dataset
      (extractor
         (Sample.state [Sample.page Sample.second_url true Sample.blank_page]
            Sample.empty_world)) = [].
Proof.
  split; [reflexivity |]. split; [reflexivity |]. split; [|reflexivity].
  apply (bool_decide_unpack _). vm_compute. exact I.
Qed.

(** C9, as stated, fails: two runs return the same value and differ in
    their counters, so the value returned does not hold the counters. *)
Lemma returned_value_omits_counters :
  fst (Sample.run [Sample.page Sample.first_url true Sample.article_page]
         Sample.empty_world)
  = fst (Sample.run [Sample.page Sample.first_url true Sample.article_page;
                     Sample.page Sample.first_url true Sample.article_page]
           Sample.empty_world)
  ∧ (let st := Sample.state
                 [Sample.page Sample.first_url true Sample.article_page]
                 Sample.empty_world in
     (result_count st, success_count st, skip_count st) = (1, 1, 0)%nat)
  ∧ (let st := Sample.state
                 [Sample.page Sample.first_url true Sample.article_page;
                  Sample.page Sample.first_url true Sample.article_page]
                 Sample.empty_world in
     (result_count st, success_count st, skip_count st) = (2, 1, 1)%nat).
Proof. repeat split; vm_compute; reflexivity. Qed.

(** C6, as stated, fails: when the aggregate file of the first run takes
    the name of a dataset file that was there, the URLs of that file are
    lost for seeding, and the second run captures one of them. *)
Lemma clash_loses_history :
  Sample.first_url ∈ visited_urls (seeded Sample.clashing_world)
  ∧ fst (Sample.run Sample.two_articles Sample.clashing_world)
    = Returned [Sample.head_record Sample.second_url]
  ∧ fst (Sample.run Sample.two_articles
           (snd (Sample.run Sample.two_articles Sample.clashing_world)))
    = Returned [ {| url := Sample.first_url; title := "Head"; content := "Body";
                    crawl_time := "T111"; content_length := 4 |} ].
Proof.
  split; [apply (bool_decide_unpack _); vm_compute; exact I |].
  split; vm_compute; reflexivity.
Qed.

(** Idempotence of C6 on a run in an empty directory: the name of the
    aggregate file is free, and the second run returns nothing. *)
Lemma second_run_captures_nothing_witness :
  files Sample.empty_world
    !! dataset_name (strftime_YmdHMS (Sample.now
         (ticks (world (Sample.state Sample.mixed_stream Sample.empty_world)))))
  = None
  ∧ fst (Sample.run Sample.mixed_stream
           (snd (Sample.run Sample.mixed_stream Sample.empty_world)))
    = Returned []
  ∧ success_count
      (Sample.state Sample.mixed_stream
         (snd (Sample.run Sample.mixed_stream Sample.empty_world))) = 0%nat.
Proof.
  split; [reflexivity |].
  apply (second_run_captures_nothing Sample.Tag Sample.soup_find Sample.get_text
           Sample.now 50000 3 50000 3 Sample.mixed_stream Sample.empty_world).
  reflexivity.
Defined.

(** Seeding a directory with damaged entries (C7): no exception, and the
    URL of the well-formed dataset file is in the ledger. *)
Lemma seeding_skips_malformed_files_witness :
  fst (load_existing_urls (new_extractor output_directory)
         Sample.damaged_directory) = Returned tt
  ∧ fst (Seed.try_body (TextFile "not a document") ∅) = Raised JSONDecodeError
  ∧ Sample.first_url
      ∈ visited_urls (snd (load_existing_urls (new_extractor output_directory)
                             Sample.damaged_directory)).
Proof.
  destruct (seeding_skips_malformed_files (new_extractor output_directory)
              Sample.damaged_directory) as (Hret & _ & Hurls).
  split; [exact Hret |]. split; [reflexivity |].
  apply (Hurls "good.json"
           (JsonFile (aggregate_json "T0" [Sample.head_record Sample.first_url]))
           [Sample.first_url]).
  - vm_compute. reflexivity.
  - reflexivity.
  - exact (SeedFacts.aggregate_lists_urls "T0"
             [Sample.head_record Sample.first_url]).
  - left.
Defined.

(** The second delivery of a URL (C1) is a skip. *)
Lemma no_url_is_captured_twice_witness :
  skip_count
    (Sample.state [Sample.page Sample.first_url true Sample.article_page;
                   Sample.page Sample.first_url true Sample.article_page]
       Sample.empty_world)
  = S (skip_count
         (Sample.state [Sample.page Sample.first_url true Sample.article_page]
            Sample.empty_world))
  ∧ NoDup (map url (dataset (extractor
             (Sample.state Sample.mixed_stream Sample.empty_world)))).
Proof.
  destruct (no_url_is_captured_twice Sample.Tag Sample.soup_find
              Sample.get_text Sample.now 50000 3 Sample.mixed_stream
              Sample.empty_world) as (Hnd & _ & _ & Hskip).
  split; [|exact Hnd].
  destruct (Hskip [Sample.page Sample.first_url true Sample.article_page]
              (Sample.page Sample.first_url true Sample.article_page)
              [Sample.page "https://www.nur.cn/about.html" true
                 Sample.article_page;
               Sample.page Sample.second_url true Sample.blank_page]
              (Sample.page Sample.first_url true Sample.article_page))
    as (_ & _ & _ & _ & Hk).
  - reflexivity.
  - reflexivity.
  - left.
  - reflexivity.
  - reflexivity.
  - exact Hk.
Defined.

(** A call of the extractor (C2) comes from an accepted page result. *)
Lemma filter_guards_extractor_witness :
  (Sample.blank_page, Sample.second_url)
    ∈ calls (Sample.state Sample.mixed_stream Sample.empty_world)
  ∧ ∃ r, r ∈ Sample.mixed_stream
         ∧ Sample.blank_page = r_html r ∧ Sample.second_url = r_url r
         ∧ r_success r = true
         ∧ r_html r ≠ EmptyString
         ∧ (∃ pre post, r_url r = pre +:+ "/news/" +:+ post)
         ∧ (∃ pre, r_url r = pre +:+ ".shtml").
Proof.
  assert ((Sample.blank_page, Sample.second_url)
            ∈ calls (Sample.state Sample.mixed_stream Sample.empty_world))
    as Hcall by (apply (bool_decide_unpack _); vm_compute; exact I).
  split; [exact Hcall |].
  exact (proj1 (filter_guards_extractor Sample.Tag Sample.soup_find
                  Sample.get_text Sample.now 50000 3 Sample.mixed_stream
                  Sample.empty_world)
         Sample.blank_page Sample.second_url Hcall).
Defined.

(** The artifact of a record with a title (C5). *)
Lemma incremental_writer_contract_witness :
  title (Sample.head_record Sample.first_url) ≠ EmptyString
  ∧ ∃ base,
      save_single_txt (new_extractor output_directory)
        (Sample.head_record Sample.first_url) Sample.empty_world
      = (Some (base +:+ ".txt"),
         write_file (base +:+ ".txt")
           (TextFile ("Head" +:+ PyStr.newline +:+ PyStr.newline +:+ "Body"))
           Sample.empty_world)
      ∧ String.length base = 4%nat.
Proof.
  assert (title (Sample.head_record Sample.first_url) ≠ EmptyString) as Ht
    by discriminate.
  split; [exact Ht |].
  destruct (proj1 (incremental_writer_contract Sample.Tag Sample.soup_find
                     Sample.get_text Sample.now
                     (new_extractor output_directory)
                     (Sample.head_record Sample.first_url) Sample.empty_world)
              Ht) as (base & Hsave & Hlen & _).
  exists base. split; [exact Hsave | exact Hlen].
Defined.

(** The characters of the illegal class become underscores, and a long
    title is cut at 50 characters. *)
Example safe_title_of_replaces :
  safe_title_of "a/b:c?d*e<f>g|h" = "a_b_c_d_e_f_g_h".
Proof. reflexivity. Qed.

Example safe_title_of_cuts :
  String.length
    (safe_title_of
       "0123456789012345678901234567890123456789012345678901234567890123456789")
  = 50%nat.
Proof. reflexivity. Qed.

(** The aggregate file of a run that captured an article (C4, C10). *)
Lemma aggregate_file_integrity_witness :
  ∃ doc arts,
    files (snd (Sample.run Sample.mixed_stream Sample.empty_world))
    = <["nur_dataset_D1.json" := JsonFile doc]>
        (files (world (Sample.state Sample.mixed_stream Sample.empty_world)))
    ∧ jget "articles" doc = Some (JArr arts)
    ∧ arts = map article_json
               (dataset (extractor
                  (Sample.state Sample.mixed_stream Sample.empty_world)))
    ∧ jget "total_articles" doc = Some (JNum (Z.of_nat (length arts)))
    ∧ Forall (λ a, ∃ c, jget "content" a = Some (JStr c)
                     ∧ jget "content_length" a
                       = Some (JNum (Z.of_nat (String.length c)))) arts.
Proof.
  exact (aggregate_file_integrity Sample.Tag Sample.soup_find Sample.get_text
           Sample.now 50000 3 Sample.mixed_stream Sample.empty_world).
Defined.

Lemma success_count_is_buffer_length_witness :
  dataset (extractor (Sample.state Sample.mixed_stream Sample.empty_world)) ≠ []
  ∧ ∃ doc,
      files (snd (Sample.run Sample.mixed_stream Sample.empty_world))
        !! "nur_dataset_D1.json" = Some (JsonFile doc)
      ∧ jget "total_articles" doc = Some (JNum 1).
Proof.
  assert (dataset (extractor
            (Sample.state Sample.mixed_stream Sample.empty_world)) ≠ [])
    as Hne by discriminate.
  split; [exact Hne |].
  exact (proj2 (proj2 (success_count_is_buffer_length Sample.Tag
                         Sample.soup_find Sample.get_text Sample.now 50000 3
                         Sample.mixed_stream Sample.empty_world)) Hne).
Defined.

(** * Further properties of the code *)

(** ** The ledger *)

(** X1 — [is_duplicate] checks and marks in one step: it answers [True]
    exactly for a URL of the ledger, the URL is in the ledger afterwards,
    no other URL enters or leaves it, the run buffer is untouched, and a
    second call on the same URL answers [True] and changes nothing. *)
Theorem is_duplicate_checks_and_marks (self : NurContentExtractor) (u : string) :
  (fst (is_duplicate self u) = true ↔ u ∈ visited_urls self)
  ∧ u ∈ visited_urls (snd (is_duplicate self u))
  ∧ (∀ v, v ≠ u →
          (v ∈ visited_urls (snd (is_duplicate self u)) ↔ v ∈ visited_urls self))
  ∧ dataset (snd (is_duplicate self u)) = dataset self
  ∧ output_dir (snd (is_duplicate self u)) = output_dir self
  ∧ is_duplicate (snd (is_duplicate self u)) u
    = (true, snd (is_duplicate self u)).
Proof.
  unfold is_duplicate.
  destruct (bool_decide_reflect (u ∈ visited_urls self)) as [Hin | Hout]; simpl.
  - rewrite bool_decide_eq_true_2 by done. by repeat split.
  - rewrite bool_decide_eq_true_2 by set_solver.
    repeat split; try done; set_solver.
Qed.

(** ** Seeding *)

Lemma add_urls_stops_at_failure good urls bad rest e (V : gset string) :
  Forall2 (λ a u, jget "url" a = Some (JStr u)) good urls →
  Seed.add_urls [bad] ∅ = (Raised e, ∅) →
  Seed.add_urls (good ++ bad :: rest) V = (Raised e, V ∪ list_to_set urls).
Proof.
  intros Hgood Hbad. revert V.
  induction Hgood as [|a u good urls Hau _ IH]; intros V.
  - simpl in *. destruct (Seed.subscript bad "url") as [v|e'].
    + rewrite (SeedFacts.set_add_frame v V).
      destruct (Seed.set_add v ∅) as [[[]|e'] W]; [discriminate |].
      injection Hbad as -> ->. done.
    + injection Hbad as ->. f_equal. set_solver.
  - destruct a; try discriminate. simpl in Hau.
    change (Seed.add_urls ((JObj members :: good) ++ bad :: rest) V)
      with (match Seed.subscript (JObj members) "url" with
            | Raised e0 => (Raised e0, V)
            | Returned u0 =>
                match Seed.set_add u0 V with
                | (Raised e0, V') => (Raised e0, V')
                | (Returned _, V') => Seed.add_urls (good ++ bad :: rest) V'
                end
            end).
    unfold Seed.subscript. rewrite Hau. simpl. rewrite IH.
    f_equal. set_solver.
Qed.

(** X2 — A dataset file that breaks off.  When the list [articles] of a
    document starts with well-formed articles and goes on with an entry
    that makes the loop raise (no [url], not an object, an unhashable
    [url]), the [try] body raises at that entry; the URLs before it stay
    in the ledger and those after it are not read. *)
Theorem seeding_keeps_urls_before_failure
    members good urls bad rest e (V : gset string) :
  obj_get "articles" members = Some (JArr (good ++ bad :: rest)) →
  Forall2 (λ a u, jget "url" a = Some (JStr u)) good urls →
  Seed.add_urls [bad] ∅ = (Raised e, ∅) →
  Seed.try_body (JsonFile (JObj members)) V = (Raised e, V ∪ list_to_set urls)
  ∧ urls_in (JsonFile (JObj members)) = list_to_set urls
  ∧ ∀ n, Seed.visit_entry (n +:+ ".json", JsonFile (JObj members)) V
         = (Returned tt, V ∪ list_to_set urls).
Proof.
  intros Hm Hgood Hbad.
  assert (∀ W : gset string,
             Seed.try_body (JsonFile (JObj members)) W
             = (Raised e, W ∪ list_to_set urls)) as Hbody.
  { intros W. unfold Seed.try_body. simpl. rewrite Hm. simpl.
    by apply add_urls_stops_at_failure. }
  split; [apply Hbody |]. split.
  - unfold urls_in. rewrite Hbody. simpl. set_solver.
  - intros n. unfold Seed.visit_entry. simpl.
    assert (PyStr.endswith (n +:+ ".json") ".json" = true) as ->
      by (apply PyStrFacts.endswith_spec; by exists n).
    unfold Seed.except_pass. by rewrite Hbody.
Qed.

(** X3 — Documents of another shape.  Seeding takes URLs from a JSON
    document only when it is an object whose member [articles] is a list:
    from any other document (a list, a string, a number, an object without
    [articles], an object whose [articles] is not a list) it takes none,
    whether the [try] body returns or raises. *)
Theorem seeding_takes_nothing_from_other_shapes (doc : json) (V : gset string) :
  (∀ members arts,
      doc = JObj members → obj_get "articles" members ≠ Some (JArr arts)) →
  urls_in (JsonFile doc) = ∅
  ∧ snd (Seed.try_body (JsonFile doc) V) = V
  ∧ ∀ n, snd (Seed.visit_entry (n, JsonFile doc) V) = V.
Proof.
  intros Hshape.
  assert (urls_in (JsonFile doc) = ∅) as Hnone.
  { unfold urls_in, Seed.try_body. simpl.
    destruct doc as [| | | s | items | members]; simpl; try done.
    - by destruct (PyStr.contains _ _).
    - by destruct (existsb _ _).
    - destruct (obj_get "articles" members) as [a|] eqn:Ha; simpl; [|done].
      destruct a as [| | | s | items | ms]; simpl; try done.
      + destruct s; simpl; done.
      + by destruct (Hshape members items eq_refl).
      + destruct (remove_dups (map fst ms)); simpl; done. }
  split; [done |].
  assert (snd (Seed.try_body (JsonFile doc) V) = V) as Hbody.
  { rewrite SeedFacts.try_body_frame, Hnone. set_solver. }
  split; [done |]. intros n.
  rewrite SeedFacts.visit_entry_visited. simpl.
  rewrite Hnone. destruct (PyStr.endswith n ".json"); set_solver.
Qed.

(** X4 — The order in which [os.listdir] lists the entries does not
    matter: seeding two listings of the same entries gives the same
    ledger. *)
Theorem seeding_is_order_independent
    (entries entries' : list (string * file)) (V : gset string) :
  entries ≡ₚ entries' →
  snd (Seed.for_each entries V) = snd (Seed.for_each entries' V).
Proof.
  intros Hperm. apply set_eq. intros x.
  rewrite !SeedFacts.elem_of_for_each.
  split; (intros [HV | (n & f & Hin & Hj & Hx)]; [by left | right]);
    exists n, f; (split; [|done]).
  - by rewrite <- Hperm.
  - by rewrite Hperm.
Qed.

(** X5 — Seeding reads the entries whose name ends with [.json] and no
    other: two directories that agree on those names seed the same
    ledger.  So an artifact written by [save_single_txt] never changes what
    a later run is seeded with. *)
Theorem seeding_reads_json_entries_only :
  (∀ self (dir dir' : gmap string file),
      (∀ n, PyStr.endswith n ".json" = true → dir !! n = dir' !! n) →
      visited_urls (snd (load_existing_urls self dir))
      = visited_urls (snd (load_existing_urls self dir')))
  ∧ (∀ self d w,
        visited_urls (seeded (snd (save_single_txt self d w)))
        = visited_urls (seeded w)).
Proof.
  assert (∀ self (dir dir' : gmap string file),
      (∀ n, PyStr.endswith n ".json" = true → dir !! n = dir' !! n) →
      visited_urls (snd (load_existing_urls self dir))
      = visited_urls (snd (load_existing_urls self dir'))) as Hgen.
  { intros self dir dir' Hagree. apply set_eq. intros x.
    rewrite !SeedFacts.elem_of_seeded.
    split; (intros [HV | (n & f & Hn & Hj & Hx)]; [by left | right]);
      exists n, f; (split; [|done]).
    - by rewrite <- (Hagree n Hj).
    - by rewrite (Hagree n Hj). }
  split; [exact Hgen |].
  intros self d w. unfold seeded. apply Hgen. intros n Hj.
  destruct (save_single_txt_files self d w) as [-> _].
  by apply txt_written_json.
Qed.

(** ** Artifact names *)

Lemma get_take_some n s i c :
  String.get i (PyStr.take n s) = Some c → String.get i s = Some c.
Proof.
  revert s i; induction n as [|n IH]; intros [|a s] [|i]; simpl; try done.
  apply IH.
Qed.

Lemma get_append_some (s t : string) i c :
  String.get i (s +:+ t) = Some c →
  (∃ j, String.get j s = Some c) ∨ (∃ j, String.get j t = Some c).
Proof.
  revert i; induction s as [|a s IH]; intros i.
  - intros H. right. by exists i.
  - change (String a s +:+ t) with (String a (s +:+ t)).
    destruct i as [|i]; simpl.
    + intros [= ->]. left. by exists 0%nat.
    + intros [[j Hj] | Hr]%IH; [left; by exists (S j) | by right].
Qed.

Lemma contains_char_false c s :
  (∀ i x, String.get i s = Some x → x ≠ c) →
  PyStr.contains (String c EmptyString) s = false.
Proof.
  induction s as [|a s IH]; intros Hall; [done |].
  cbn [PyStr.contains PyStr.startswith].
  rewrite IH by (intros i x Hx; by apply (Hall (S i))).
  assert (c ≠ a) as Hne by (intros ->; by apply (Hall 0%nat a)).
  apply Ascii.eqb_neq in Hne as ->. by destruct s.
Qed.

Lemma sub_class_clean cls r s i c :
  cls r = false →
  String.get i (PyStr.sub_class cls r s) = Some c → cls c = false.
Proof.
  intros Hr. rewrite PyStrFacts.sub_class_get.
  destruct (String.get i s) as [a|]; simpl; [|done].
  intros [= <-]. by destruct (cls a) eqn:Ha.
Qed.

Lemma sub_class_fixed cls r s :
  (∀ i c, String.get i s = Some c → cls c = false) →
  PyStr.sub_class cls r s = s.
Proof.
  induction s as [|a s IH]; intros Hall; simpl; [done |].
  rewrite (Hall 0%nat a eq_refl), IH; [done |].
  intros i c Hc. by apply (Hall (S i)).
Qed.

Lemma take_take n s : PyStr.take n (PyStr.take n s) = PyStr.take n s.
Proof.
  revert s; induction n as [|n IH]; intros [|a s]; simpl; try done.
  by rewrite IH.
Qed.

Lemma safe_title_clean t i c :
  String.get i (safe_title_of t) = Some c → illegal_in_filename c = false.
Proof.
  unfold safe_title_of. intros Hc%get_take_some.
  by apply sub_class_clean in Hc.
Qed.

(** X6 — The name of an artifact is safe.  Whatever the title, the base
    name [save_single_txt] derives from it has at most 50 characters and
    none of the class it replaces; the file name ends with [.txt] and has
    no slash, so the artifact is an entry of the output directory itself;
    and a base name is left as it is when it is sanitized again. *)
Theorem artifact_name_is_safe (t : string) :
  (String.length (safe_title_of t) ≤ 50)%nat
  ∧ (∀ i c, String.get i (safe_title_of t) = Some c →
            illegal_in_filename c = false)
  ∧ PyStr.contains "/" (safe_title_of t +:+ ".txt") = false
  ∧ PyStr.endswith (safe_title_of t +:+ ".txt") ".txt" = true
  ∧ PyStr.endswith (safe_title_of t +:+ ".txt") ".json" = false
  ∧ safe_title_of (safe_title_of t) = safe_title_of t.
Proof.
  split; [unfold safe_title_of; rewrite PyStrFacts.take_length; lia |].
  split; [apply safe_title_clean |]. split; [|split; [|split]].
  - apply contains_char_false. intros i x [[j Hj] | [j Hj]]%get_append_some.
    + apply safe_title_clean in Hj. by intros ->.
    + intros ->. by do 5 (destruct j as [|j]; [discriminate |]).
  - apply PyStrFacts.endswith_spec. by eexists.
  - apply PyStrFacts.txt_is_not_json.
  - unfold safe_title_of at 1.
    rewrite sub_class_fixed by apply safe_title_clean.
    unfold safe_title_of. apply take_take.
Qed.

(** X7 — Two titles, one name.  When two records with a title get the same
    base name (their titles agree on the first 50 characters once
    sanitized), the second artifact replaces the first: the directory is
    the one that writing the second record alone would leave. *)
Theorem same_name_overwrites
    (self : NurContentExtractor) (d1 d2 : ArticleRecord) (w : World) :
  title d1 ≠ EmptyString →
  title d2 ≠ EmptyString →
  safe_title_of (title d1) = safe_title_of (title d2) →
  fst (save_single_txt self d1 w) = fst (save_single_txt self d2 w)
  ∧ files (snd (save_single_txt self d2 (snd (save_single_txt self d1 w))))
    = files (snd (save_single_txt self d2 w))
  ∧ files (snd (save_single_txt self d2 (snd (save_single_txt self d1 w))))
      !! (safe_title_of (title d1) +:+ ".txt")
    = Some (TextFile (txt_text d2)).
Proof.
  intros H1%PyStrFacts.truthy_spec H2%PyStrFacts.truthy_spec Hsame.
  unfold save_single_txt. rewrite H1, H2, Hsame. simpl.
  split; [done |]. split.
  - apply insert_insert_eq.
  - apply lookup_insert_eq.
Qed.

(** ** The loop, further *)

Section MoreLoopFacts.

Context (Tag : Type).
Context (soup_find : string -> string -> string -> option Tag).
Context (get_text : string -> Tag -> string).
Context (now : nat -> datetime).

Local Abbreviation page_title := (page_title Tag soup_find get_text).
Local Abbreviation page_content := (page_content Tag soup_find get_text).
Local Abbreviation extract_content := (extract_content Tag soup_find get_text now).
Local Abbreviation step := (step Tag soup_find get_text now).
Local Abbreviation run_loop := (run_loop Tag soup_find get_text now).
Local Abbreviation iteration := (iteration Tag soup_find get_text now).
Local Abbreviation crawl_state := (crawl_state Tag soup_find get_text now).
Local Abbreviation deep_crawl_nur := (deep_crawl_nur Tag soup_find get_text now).
Local Abbreviation save_final_dataset := (save_final_dataset now).
Local Abbreviation finish := (finish now).

Lemma run_loop_tally st s :
  (skip_count (run_loop st s) + length (calls (run_loop st s))
   = skip_count st + length (calls st) + length (List.filter accepted s))%nat
  ∧ (success_count (run_loop st s) + length (calls st)
     ≤ success_count st + length (calls (run_loop st s)))%nat.
Proof.
  revert st; induction s as [|r s IH]; intros st; [simpl; lia |].
  change (run_loop st (r :: s)) with (run_loop (step st r) s).
  destruct (IH (step st r)) as [-> Hle]. cbn [List.filter].
  destruct (step_iteration Tag soup_find get_text now st r) as
    [Ha _ _ _ Hs Hk Hc | Ha _ _ _ Hs Hk Hc
     | Ha _ _ _ _ _ _ _ Hs Hk Hc | d Ha _ _ _ _ _ _ _ Hs Hk Hc];
    rewrite Ha; rewrite Hs in Hle; rewrite Hc in Hle; rewrite Hk, Hc;
    rewrite ?length_app in *; simpl in *; lia.
Qed.

(** X8 — The counters account for every page result.  After the loop the
    total is the number of page results delivered; every result that
    passed the filter was either counted as a skip or handed to the
    extractor, once; and a success is counted only for a call of the
    extractor, so successes and skips together never exceed the total. *)
Theorem counters_account_for_every_result
    (max_pages max_depth : Z) (stream : list CrawlResult) (w : World) :
  result_count (crawl_state max_pages max_depth stream w) = length stream
  ∧ (skip_count (crawl_state max_pages max_depth stream w)
     + length (calls (crawl_state max_pages max_depth stream w))
     = length (List.filter accepted stream))%nat
  ∧ (success_count (crawl_state max_pages max_depth stream w)
     ≤ length (calls (crawl_state max_pages max_depth stream w)))%nat
  ∧ (success_count (crawl_state max_pages max_depth stream w)
     + skip_count (crawl_state max_pages max_depth stream w)
     ≤ result_count (crawl_state max_pages max_depth stream w))%nat.
Proof.
  pose proof (run_loop_tally
    (loop_entry (seeded w) (announce max_pages max_depth (seeded w) w)) stream)
    as [Hsum Hle].
  pose proof (run_loop_result_count Tag soup_find get_text now
    (loop_entry (seeded w) (announce max_pages max_depth (seeded w) w)) stream)
    as Hrc.
  pose proof (List.filter_length_le accepted stream) as Hf.
  unfold crawl_state, streamed.
  set (st := run_loop _ stream) in *. clearbody st.
  unfold loop_entry in Hsum, Hle, Hrc.
  cbn [skip_count calls success_count result_count length] in Hsum, Hle, Hrc.
  lia.
Qed.

(** X9 — What a record of the run buffer is.  Its URL passed the filter
    (it contains [/news/] and ends with [.shtml]), was not in the ledger
    seeded from history and is in the ledger once the loop is over; its
    title and body are those of a page result of the stream with that URL,
    not both empty; and its [content_length] is the length of its body. *)
Theorem run_buffer_records_are_articles
    (max_pages max_depth : Z) (stream : list CrawlResult) (w : World)
    (d : ArticleRecord) :
  d ∈ dataset (extractor (crawl_state max_pages max_depth stream w)) →
  (∃ r, r ∈ stream ∧ r_success r = true ∧ r_url r = url d
        ∧ title d = page_title (r_html r)
        ∧ content d = page_content (r_html r))
  ∧ (title d ≠ EmptyString ∨ content d ≠ EmptyString)
  ∧ (∃ pre post, url d = pre +:+ "/news/" +:+ post)
  ∧ (∃ pre, url d = pre +:+ ".shtml")
  ∧ (url d ∉ visited_urls (seeded w))
  ∧ url d ∈ visited_urls (extractor (crawl_state max_pages max_depth stream w))
  ∧ content_length d = String.length (content d).
Proof.
  intros Hd.
  destruct (crawl_state_consistent Tag soup_find get_text now
              max_pages max_depth stream w) as (_ & Hvis & _ & _ & Hlen).
  pose proof Hd as [Hin | (Hout & r & w' & Hr & Ha & Hu & Hx)]%dataset_run_loop;
    [by inversion Hin |].
  destruct (extract_content (r_html r) (r_url r) w') as [o w''] eqn:He.
  simpl in Hx. subst o.
  apply extract_content_record in He as (_ & Ht & Hc & _ & _ & _ & Hne).
  apply accepted_spec in Ha as (Hs & _ & Hnews & Hsuf).
  split; [by exists r |]. split; [done |].
  rewrite Hu. split; [done |]. split; [done |].
  rewrite <- Hu. split; [done |]. split; [by apply Hvis | by apply Hlen].
Qed.

(** X10 — The run buffer keeps the order of delivery: the URLs of its
    records, in order, are a subsequence of the URLs of the page results
    that passed the filter. *)
Theorem run_buffer_follows_delivery_order
    (max_pages max_depth : Z) (stream : list CrawlResult) (w : World) :
  map url (dataset (extractor (crawl_state max_pages max_depth stream w)))
    `sublist_of` map r_url (List.filter accepted stream).
Proof.
  induction stream as [|r stream IH] using rev_ind; [apply sublist_nil_l |].
  rewrite crawl_state_snoc, List.filter_app, map_app. cbn [List.filter].
  destruct (step_iteration Tag soup_find get_text now
              (crawl_state max_pages max_depth stream w) r) as
    [Ha He _ _ _ _ _ | Ha _ He _ _ _ _
     | Ha _ _ Hd _ _ _ _ _ _ _ | d Ha _ Hx Hd _ _ _ _ _ _ _];
    rewrite Ha, ?He, ?Hd.
  - by rewrite app_nil_r.
  - by apply sublist_inserts_r.
  - by apply sublist_inserts_r.
  - apply extract_content_record in Hx as (Hu & _).
    rewrite map_app. simpl. rewrite Hu. by apply sublist_app.
Qed.

(** X16 — A URL known from history never reaches the extractor.  For a
    URL that seeding put in the ledger, the run makes no call of
    [extract_content] and its run buffer holds no record, however often
    the crawler delivers it. *)
Theorem seeded_urls_are_never_extracted
    (max_pages max_depth : Z) (stream : list CrawlResult) (w : World)
    (u : string) :
  u ∈ visited_urls (seeded w) →
  (∀ h, (h, u) ∉ calls (crawl_state max_pages max_depth stream w))
  ∧ u ∉ map url (dataset (extractor (crawl_state max_pages max_depth stream w))).
Proof.
  intros Hu. split.
  - intros h [Hin | (Hout & _)]%calls_run_loop; [by inversion Hin | done].
  - intros (d & -> & [Hin | (Hout & _)]%dataset_run_loop)%list_elem_of_fmap;
      [by inversion Hin | done].
Qed.

End MoreLoopFacts.

(** ** The output directory *)

Lemma txt_name_is_txt d : PyStr.endswith (txt_name d) ".txt" = true.
Proof. apply PyStrFacts.endswith_spec. by eexists. Qed.

Lemma txt_written_kept d (dir : gmap string file) n :
  is_Some (dir !! n) → is_Some (txt_written d dir !! n).
Proof.
  unfold txt_written. destruct (PyStr.truthy (title d)); [|done].
  intros Hn. rewrite lookup_insert. by case_decide.
Qed.

Lemma txt_written_other d (dir : gmap string file) n :
  PyStr.endswith n ".txt" = false → txt_written d dir !! n = dir !! n.
Proof.
  intros Hn. unfold txt_written. destruct (PyStr.truthy (title d)); [|done].
  apply lookup_insert_ne. intros <-. by rewrite txt_name_is_txt in Hn.
Qed.

Lemma txt_name_is_no_dataset_name d ts : txt_name d ≠ dataset_name ts.
Proof.
  intros Heq. pose proof (dataset_name_json ts) as Hj.
  rewrite <- Heq in Hj. unfold txt_name in Hj.
  by rewrite PyStrFacts.txt_is_not_json in Hj.
Qed.

Lemma elem_of_seeded_ledger w x :
  x ∈ visited_urls (seeded w)
  ↔ ∃ n f, files w !! n = Some f
           ∧ PyStr.endswith n ".json" = true ∧ x ∈ urls_in f.
Proof.
  unfold seeded. rewrite SeedFacts.elem_of_seeded. simpl. set_solver.
Qed.

Section DirectoryFacts.

Context (Tag : Type).
Context (soup_find : string -> string -> string -> option Tag).
Context (get_text : string -> Tag -> string).
Context (now : nat -> datetime).

Local Abbreviation extract_content := (extract_content Tag soup_find get_text now).
Local Abbreviation step := (step Tag soup_find get_text now).
Local Abbreviation run_loop := (run_loop Tag soup_find get_text now).
Local Abbreviation crawl_state := (crawl_state Tag soup_find get_text now).
Local Abbreviation deep_crawl_nur := (deep_crawl_nur Tag soup_find get_text now).
Local Abbreviation save_final_dataset := (save_final_dataset now).
Local Abbreviation finish := (finish now).

Lemma run_loop_directory st s n :
  (is_Some (files (world st) !! n) →
   is_Some (files (world (run_loop st s)) !! n))
  ∧ (PyStr.endswith n ".txt" = false →
     files (world (run_loop st s)) !! n = files (world st) !! n).
Proof.
  apply (run_loop_invariant Tag soup_find get_text now
    (λ st', (is_Some (files (world st) !! n) →
             is_Some (files (world st') !! n))
            ∧ (PyStr.endswith n ".txt" = false →
               files (world st') !! n = files (world st) !! n))); [done |].
  intros st' r _ [Hkept Hother].
  destruct (step_iteration Tag soup_find get_text now st' r) as
    [_ _ Hf _ _ _ _ | _ _ _ Hw _ _ _
     | _ _ _ _ _ _ Hf _ _ _ _ | d _ _ _ _ _ _ Hf _ _ _ _];
    rewrite ?Hf, ?Hw; try done.
  split.
  - intros Hn. by apply txt_written_kept, Hkept.
  - intros Hn. rewrite txt_written_other by done. by apply Hother.
Qed.

(** X11 — What a run does to the output directory.  No entry is ever
    removed; and the entries a run may create or replace are those whose
    name ends with [.txt] and the aggregate file of the run: every other
    entry is after the run what it was before. *)
Theorem run_changes_only_its_own_entries
    (max_pages max_depth : Z) (stream : list CrawlResult) (w : World)
    (n : string) :
  (is_Some (files w !! n) →
   is_Some (files (snd (deep_crawl_nur max_pages max_depth stream w)) !! n))
  ∧ (PyStr.endswith n ".txt" = false →
     n ≠ dataset_name (strftime_YmdHMS
            (now (ticks (world (crawl_state max_pages max_depth stream w))))) →
     files (snd (deep_crawl_nur max_pages max_depth stream w)) !! n
     = files w !! n).
Proof.
  rewrite deep_crawl_nur_unfold. cbn [snd]. rewrite finish_files.
  destruct (run_loop_directory
    (loop_entry (seeded w) (announce max_pages max_depth (seeded w) w))
    stream n) as [Hkept Hother].
  change (files (world (loop_entry (seeded w)
            (announce max_pages max_depth (seeded w) w)))) with (files w)
    in Hkept, Hother.
  fold (streamed Tag soup_find get_text now max_pages max_depth stream
          (seeded w) w) in Hkept, Hother.
  fold (crawl_state max_pages max_depth stream w) in Hkept, Hother.
  destruct (dataset _);
    [split; [exact Hkept | intros Hn _; by apply Hother] |]. split.
  - intros Hn. rewrite lookup_insert. case_decide; [done | by apply Hkept].
  - intros Hn Hne. rewrite lookup_insert_ne by done. by apply Hother.
Qed.

Lemma step_artifacts st r :
  (∀ d, d ∈ dataset (extractor st) → title d ≠ EmptyString →
        ∃ d', d' ∈ dataset (extractor st) ∧ txt_name d' = txt_name d
              ∧ files (world st) !! txt_name d = Some (TextFile (txt_text d'))) →
  ∀ d, d ∈ dataset (extractor (step st r)) → title d ≠ EmptyString →
       ∃ d', d' ∈ dataset (extractor (step st r)) ∧ txt_name d' = txt_name d
             ∧ files (world (step st r)) !! txt_name d
               = Some (TextFile (txt_text d')).
Proof.
  intros Hinv.
  destruct (step_iteration Tag soup_find get_text now st r) as
    [_ He Hf _ _ _ _ | _ _ He Hw _ _ _
     | _ _ _ Hd _ _ Hf _ _ _ _ | d0 _ _ _ Hd _ _ Hf _ _ _ _];
    rewrite ?He, ?Hw, ?Hd, ?Hf; try done.
  intros d Hin Ht. unfold txt_written.
  destruct (PyStr.truthy (title d0)) eqn:Ht0.
  - destruct (decide (txt_name d0 = txt_name d)) as [Heq | Hne].
    + exists d0. split; [set_solver |]. split; [done |].
      rewrite <- Heq. apply lookup_insert_eq.
    + apply elem_of_app in Hin as [Hin | ->%list_elem_of_singleton]; [|done].
      destruct (Hinv d Hin Ht) as (d' & Hd' & Hname & Hfile).
      exists d'. split; [set_solver |]. split; [done |].
      by rewrite lookup_insert_ne.
  - apply elem_of_app in Hin as [Hin | ->%list_elem_of_singleton].
    + destruct (Hinv d Hin Ht) as (d' & Hd' & Hname & Hfile).
      exists d'. split; [set_solver | done].
    + apply PyStrFacts.truthy_spec in Ht. congruence.
Qed.

(** X12 — Every record with a title has its artifact.  When the run is
    over, the directory holds under the artifact name of each titled
    record of the run buffer a text file: the artifact of that record, or
    of the record of the run buffer that took the same name after it. *)
Theorem titled_records_have_artifacts
    (max_pages max_depth : Z) (stream : list CrawlResult) (w : World)
    (d : ArticleRecord) :
  d ∈ dataset (extractor (crawl_state max_pages max_depth stream w)) →
  title d ≠ EmptyString →
  ∃ d', d' ∈ dataset (extractor (crawl_state max_pages max_depth stream w))
        ∧ txt_name d' = txt_name d
        ∧ files (snd (deep_crawl_nur max_pages max_depth stream w)) !! txt_name d
          = Some (TextFile (txt_text d')).
Proof.
  intros Hd Ht.
  assert (∃ d', d' ∈ dataset (extractor (crawl_state max_pages max_depth stream w))
                ∧ txt_name d' = txt_name d
                ∧ files (world (crawl_state max_pages max_depth stream w))
                    !! txt_name d = Some (TextFile (txt_text d')))
    as (d' & Hd' & Hname & Hfile).
  { revert d Hd Ht.
    apply (run_loop_invariant Tag soup_find get_text now
      (λ st, ∀ d, d ∈ dataset (extractor st) → title d ≠ EmptyString →
                  ∃ d', d' ∈ dataset (extractor st) ∧ txt_name d' = txt_name d
                        ∧ files (world st) !! txt_name d
                          = Some (TextFile (txt_text d')))).
    - intros d Hin. by inversion Hin.
    - intros st r _. apply step_artifacts. }
  exists d'. split; [done |]. split; [done |].
  rewrite deep_crawl_nur_unfold. cbn [snd]. rewrite finish_files.
  destruct (dataset _); [done |].
  rewrite lookup_insert_ne; [done |].
  intros Heq. symmetry in Heq. by apply txt_name_is_no_dataset_name in Heq.
Qed.

(** X13 — From [save_final_dataset] back to the ledger.  For a run buffer
    that is not empty, [save_final_dataset] returns the path of the file
    it wrote, and seeding the directory it leaves puts the URL of every
    record in the ledger; when the directory was empty, the seeded ledger
    is exactly the set of those URLs. *)
Theorem aggregate_file_seeds_its_urls (data : list ArticleRecord) (w : World) :
  data ≠ [] →
  fst (save_final_dataset data output_directory w)
  = Some (path_join output_directory
            (dataset_name (strftime_YmdHMS (now (ticks w)))))
  ∧ (∀ d, d ∈ data →
          url d ∈ visited_urls
                    (seeded (snd (save_final_dataset data output_directory w))))
  ∧ (files w = ∅ →
     visited_urls (seeded (snd (save_final_dataset data output_directory w)))
     = list_to_set (map url data)).
Proof.
  intros Hne. destruct data as [|d0 ds]; [done |].
  unfold save_final_dataset. cbn [fst snd]. split; [done |].
  pose proof (SeedFacts.urls_in_listed _ _
    (SeedFacts.aggregate_lists_urls
       (isoformat (now (ticks (advance w)))) (d0 :: ds))) as Hurls.
  split.
  - intros d Hd. rewrite elem_of_seeded_ledger.
    eexists _, _. split; [apply lookup_insert_eq |].
    split; [apply dataset_name_json |].
    rewrite Hurls. apply elem_of_list_to_set, list_elem_of_fmap. by exists d.
  - intros Hempty. apply set_eq. intros x. rewrite elem_of_seeded_ledger.
    cbn [files write_file advance]. rewrite Hempty. split.
    + intros (n & f & Hn & _ & Hx).
      apply lookup_insert_Some in Hn as [[_ <-] | [_ Hn]]; [|done].
      by rewrite <- Hurls.
    + intros Hx. eexists _, _. split; [apply lookup_insert_eq |].
      split; [apply dataset_name_json | by rewrite Hurls].
Qed.

End DirectoryFacts.

(** ** The limits and the clock *)

Section LimitFacts.

Context (Tag : Type).
Context (soup_find : string -> string -> string -> option Tag).
Context (get_text : string -> Tag -> string).
Context (now : nat -> datetime).

Local Abbreviation extract_content := (extract_content Tag soup_find get_text now).
Local Abbreviation step := (step Tag soup_find get_text now).
Local Abbreviation run_loop := (run_loop Tag soup_find get_text now).
Local Abbreviation crawl_state := (crawl_state Tag soup_find get_text now).
Local Abbreviation deep_crawl_nur := (deep_crawl_nur Tag soup_find get_text now).
Local Abbreviation finish := (finish now).

(** two states of the loop that differ at most in what was printed *)
Local Abbreviation alike st st' :=
  (dataset (extractor st) = dataset (extractor st')
   ∧ visited_urls (extractor st) = visited_urls (extractor st')
   ∧ files (world st) = files (world st')
   ∧ ticks (world st) = ticks (world st')
   ∧ result_count st = result_count st'
   ∧ success_count st = success_count st'
   ∧ skip_count st = skip_count st'
   ∧ calls st = calls st').

Lemma extract_content_reads_ticks html u w w' :
  ticks w = ticks w' →
  fst (extract_content html u w) = fst (extract_content html u w').
Proof.
  intros Ht. unfold extract_content.
  destruct (negb (PyStr.truthy html)); [done |].
  destruct (negb _ && negb _); [done |]. simpl. by rewrite Ht.
Qed.

Lemma step_alike st st' r : alike st st' → alike (step st r) (step st' r).
Proof.
  intros (Hd & Hv & Hf & Ht & Hr & Hs & Hk & Hc).
  pose proof (step_result_count Tag soup_find get_text now st r) as Hr1.
  pose proof (step_result_count Tag soup_find get_text now st' r) as Hr2.
  pose proof (extract_content_reads_ticks (r_html r) (r_url r) _ _ Ht) as Hx.
  destruct (step_iteration Tag soup_find get_text now st r) as
    [Ha He Hf1 Ht1 Hs1 Hk1 Hc1 | Ha Hin He Hw Hs1 Hk1 Hc1
     | Ha Hout Hx1 Hd1 _ Hv1 Hf1 Ht1 Hs1 Hk1 Hc1
     | d Ha Hout Hx1 Hd1 _ Hv1 Hf1 Ht1 Hs1 Hk1 Hc1];
    destruct (step_iteration Tag soup_find get_text now st' r) as
      [Ha' He' Hf2 Ht2 Hs2 Hk2 Hc2 | Ha' Hin' He' Hw' Hs2 Hk2 Hc2
       | Ha' Hout' Hx2 Hd2 _ Hv2 Hf2 Ht2 Hs2 Hk2 Hc2
       | d' Ha' Hout' Hx2 Hd2 _ Hv2 Hf2 Ht2 Hs2 Hk2 Hc2];
    try congruence;
    try (rewrite Hv in *; done);
    try (rewrite Hx1, Hx2 in Hx; simpl in Hx; try discriminate);
    rewrite ?He, ?He', ?Hw, ?Hw';
    repeat split; congruence.
Qed.

(** X14 — The two limits do not shape the outcome.  [max_pages] and
    [max_depth] are handed to the crawler and printed; for the page
    results the crawler delivers, two runs from the same world with
    different limits return the same run buffer, leave the same directory
    and count the same.  The loop itself stops at no limit: it consumes
    the stream to its end. *)
Theorem limits_do_not_shape_the_outcome
    (max_pages max_depth max_pages' max_depth' : Z)
    (stream : list CrawlResult) (w : World) :
  fst (deep_crawl_nur max_pages max_depth stream w)
  = fst (deep_crawl_nur max_pages' max_depth' stream w)
  ∧ files (snd (deep_crawl_nur max_pages max_depth stream w))
    = files (snd (deep_crawl_nur max_pages' max_depth' stream w))
  ∧ (result_count (crawl_state max_pages max_depth stream w),
     success_count (crawl_state max_pages max_depth stream w),
     skip_count (crawl_state max_pages max_depth stream w))
    = (result_count (crawl_state max_pages' max_depth' stream w),
       success_count (crawl_state max_pages' max_depth' stream w),
       skip_count (crawl_state max_pages' max_depth' stream w))
  ∧ result_count (crawl_state max_pages max_depth stream w) = length stream.
Proof.
  assert (alike (crawl_state max_pages max_depth stream w)
                (crawl_state max_pages' max_depth' stream w))
    as (Hd & _ & Hf & Ht & Hr & Hs & Hk & _).
  { unfold crawl_state, streamed.
    generalize (loop_entry (seeded w) (announce max_pages max_depth (seeded w) w))
               (loop_entry (seeded w) (announce max_pages' max_depth' (seeded w) w))
               (ltac:(by repeat split) :
                  alike (loop_entry (seeded w)
                           (announce max_pages max_depth (seeded w) w))
                        (loop_entry (seeded w)
                           (announce max_pages' max_depth' (seeded w) w))).
    induction stream as [|r stream IH]; intros st st' Hst; [done |].
    apply (IH (step st r) (step st' r)). by apply step_alike. }
  rewrite !deep_crawl_nur_unfold. cbn [fst snd]. rewrite !finish_files.
  rewrite Hd, Hf, Ht, Hr, Hs, Hk. repeat split.
  unfold crawl_state, streamed. by rewrite run_loop_result_count.
Qed.

(** X15 — The clock is read once for each captured record, in order.
    After the loop the number of readings has grown by the success
    counter; the record at position [k] of the run buffer carries the
    reading number [k] of the run as its [crawl_time]; and finalization
    reads the clock twice more when it writes the aggregate file, and not
    at all otherwise. *)
Theorem clock_is_read_once_per_record
    (max_pages max_depth : Z) (stream : list CrawlResult) (w : World) :
  ticks (world (crawl_state max_pages max_depth stream w))
  = (ticks w + success_count (crawl_state max_pages max_depth stream w))%nat
  ∧ (∀ k d,
        dataset (extractor (crawl_state max_pages max_depth stream w)) !! k
        = Some d →
        crawl_time d = isoformat (now (ticks w + k)))
  ∧ ticks (snd (deep_crawl_nur max_pages max_depth stream w))
    = (ticks (world (crawl_state max_pages max_depth stream w))
       + match dataset (extractor (crawl_state max_pages max_depth stream w)) with
         | [] => 0
         | _ :: _ => 2
         end)%nat.
Proof.
  assert (ticks (world (crawl_state max_pages max_depth stream w))
          = (ticks w + length (dataset (extractor
               (crawl_state max_pages max_depth stream w))))%nat
          ∧ ∀ k d,
              dataset (extractor (crawl_state max_pages max_depth stream w)) !! k
              = Some d →
              crawl_time d = isoformat (now (ticks w + k))) as [Hticks Htimes].
  { apply (run_loop_invariant Tag soup_find get_text now
      (λ st, ticks (world st)
             = (ticks w + length (dataset (extractor st)))%nat
             ∧ ∀ k d, dataset (extractor st) !! k = Some d →
                      crawl_time d = isoformat (now (ticks w + k)))).
    - simpl. split; [lia | done].
    - intros st r _ [Ht Hk].
      destruct (step_iteration Tag soup_find get_text now st r) as
        [_ He _ Ht1 _ _ _ | _ _ He Hw _ _ _
         | _ _ _ Hd _ _ _ Ht1 _ _ _ | d _ _ Hx Hd _ _ _ Ht1 _ _ _];
        rewrite ?He, ?Hw, ?Hd, ?Ht1; try done.
      apply extract_content_record in Hx as (_ & _ & _ & _ & Hct & _).
      rewrite length_app. simpl. split; [lia |].
      intros k d' [[_ Hold] | [-> <-]]%lookup_snoc_Some; [by apply Hk |].
      by rewrite Hct, Ht. }
  rewrite crawl_state_success_count. split; [done |]. split; [done |].
  rewrite deep_crawl_nur_unfold. cbn [snd].
  unfold finish, save_final_dataset.
  destruct (dataset _); simpl; lia.
Qed.

(** X17 — The progress report and [continue].  On an iteration whose
    number is a multiple of 500, a page result that is skipped as a
    duplicate prints nothing, because [continue] jumps over the report;
    every other page result ends the iteration with the report of the
    three counters as they are after it. *)
Theorem progress_report_skips_duplicates (st : Loop) (r : CrawlResult) :
  (S (result_count st) mod 500 = 0)%nat →
  (accepted r = true → r_url r ∈ visited_urls (extractor st) →
   stdout (world (step st r)) = stdout (world st))
  ∧ (¬ (accepted r = true ∧ r_url r ∈ visited_urls (extractor st)) →
     ∃ earlier,
       stdout (world (step st r))
       = earlier ++ [OutProgress (S (result_count st))
                       (success_count (step st r))
                       (skip_count (step st r))]).
Proof.
  intros Hmod. apply Nat.eqb_eq in Hmod. split.
  - intros Ha Hin.
    by destruct (step_duplicate Tag soup_find get_text now st r Ha Hin)
      as (_ & -> & _).
  - intros Hno. unfold step, body. cbn [extractor world result_count].
    destruct (accepted r) eqn:Hacc; pose proof Hacc as Hr; unfold accepted in Hr.
    + repeat (apply andb_true_iff in Hr as [Hr ?]).
      repeat match goal with H : _ = true |- _ => rewrite H; clear H end.
      cbn [andb]. unfold is_duplicate.
      destruct (bool_decide_reflect (r_url r ∈ visited_urls (extractor st)))
        as [Hin | Hout]; [by destruct Hno |].
      destruct (extract_content (r_html r) (r_url r) (world st)) as [[d|] w'].
      * destruct (save_single_txt _ d w') as [txt w''].
        cbn [result_count]. rewrite Hmod. cbn. by eexists.
      * cbn [result_count]. rewrite Hmod. cbn. by eexists.
    + replace (r_success r && PyStr.truthy (r_html r)) with
        (negb (PyStr.contains "/news/" (r_url r)
               && PyStr.endswith (r_url r) ".shtml")
         && (r_success r && PyStr.truthy (r_html r)))
        by (destruct (r_success r), (PyStr.truthy _), (PyStr.contains _ _),
              (PyStr.endswith _ _); done).
      destruct (PyStr.contains _ _ && PyStr.endswith _ _),
        (r_success r && PyStr.truthy _); cbn [andb negb result_count];
        rewrite Hmod; cbn; by eexists.
Qed.

End LimitFacts.

(** ** The further properties on concrete inputs *)

(** X2 on a document whose second article is a number. *)
Lemma seeding_keeps_urls_before_failure_witness :
  obj_get "articles"
    [("articles", JArr ([JObj [("url", JStr "u1")]] ++ JNum 7 :: [JStr "u2"]))]
  = Some (JArr ([JObj [("url", JStr "u1")]] ++ JNum 7 :: [JStr "u2"]))
  ∧ Forall2 (λ a u, jget "url" a = Some (JStr u))
      [JObj [("url", JStr "u1")]] ["u1"]
  ∧ Seed.add_urls [JNum 7] ∅ = (Raised TypeError, ∅)
  ∧ Seed.try_body
      (JsonFile (JObj [("articles",
         JArr ([JObj [("url", JStr "u1")]] ++ JNum 7 :: [JStr "u2"]))])) ∅
    = (Raised TypeError, ∅ ∪ list_to_set ["u1"]).
Proof.
  assert (Forall2 (λ a u, jget "url" a = Some (JStr u))
            [JObj [("url", JStr "u1")]] ["u1"]) as Hgood
    by (repeat constructor).
  split; [reflexivity |]. split; [exact Hgood |]. split; [reflexivity |].
  exact (proj1 (seeding_keeps_urls_before_failure
    [("articles", JArr ([JObj [("url", JStr "u1")]] ++ JNum 7 :: [JStr "u2"]))]
    [JObj [("url", JStr "u1")]] ["u1"] (JNum 7) [JStr "u2"] TypeError ∅
    eq_refl Hgood eq_refl)).
Defined.

(** X3 on a list that holds the string [articles]: the membership test
    succeeds, the subscript raises, and nothing is taken. *)
Lemma seeding_takes_nothing_from_other_shapes_witness :
  (∀ members arts,
      JArr [JStr "articles"] = JObj members →
      obj_get "articles" members ≠ Some (JArr arts))
  ∧ Seed.try_body (JsonFile (JArr [JStr "articles"])) ∅ = (Raised TypeError, ∅)
  ∧ urls_in (JsonFile (JArr [JStr "articles"])) = ∅.
Proof.
  assert (∀ members arts,
             JArr [JStr "articles"] = JObj members →
             obj_get "articles" members ≠ Some (JArr arts)) as Hshape
    by (intros members arts Heq; discriminate Heq).
  split; [exact Hshape |]. split; [reflexivity |].
  exact (proj1 (seeding_takes_nothing_from_other_shapes
                  (JArr [JStr "articles"]) ∅ Hshape)).
Defined.

(** X4 on two listings of a directory with one damaged entry. *)
Lemma seeding_is_order_independent_witness :
  [("bad.json", Unreadable);
   ("good.json",
    JsonFile (aggregate_json "T0" [Sample.head_record Sample.first_url]))]
  ≡ₚ [("good.json",
       JsonFile (aggregate_json "T0" [Sample.head_record Sample.first_url]));
      ("bad.json", Unreadable)]
  ∧ snd (Seed.for_each
           [("bad.json", Unreadable);
            ("good.json",
             JsonFile (aggregate_json "T0" [Sample.head_record Sample.first_url]))]
           ∅)
    = snd (Seed.for_each
             [("good.json",
               JsonFile (aggregate_json "T0" [Sample.head_record Sample.first_url]));
              ("bad.json", Unreadable)]
             ∅).
Proof.
  assert ([("bad.json", Unreadable);
           ("good.json",
            JsonFile (aggregate_json "T0" [Sample.head_record Sample.first_url]))]
          ≡ₚ [("good.json",
               JsonFile (aggregate_json "T0" [Sample.head_record Sample.first_url]));
              ("bad.json", Unreadable)]) as Hperm by apply perm_swap.
  split; [exact Hperm |].
  exact (seeding_is_order_independent _ _ ∅ Hperm).
Defined.

(** X7 on the titles [a/b] and [a:b], which both give [a_b.txt]. *)
Lemma same_name_overwrites_witness :
  "a/b" ≠ EmptyString
  ∧ "a:b" ≠ EmptyString
  ∧ safe_title_of "a/b" = safe_title_of "a:b"
  ∧ files (snd (save_single_txt (new_extractor output_directory)
                  {| url := "u2"; title := "a:b"; content := "second";
                     crawl_time := "T"; content_length := 6 |}
                  (snd (save_single_txt (new_extractor output_directory)
                          {| url := "u1"; title := "a/b"; content := "first";
                             crawl_time := "T"; content_length := 5 |}
                          Sample.empty_world))))
      !! "a_b.txt"
    = Some (TextFile ("a:b" +:+ PyStr.newline +:+ PyStr.newline +:+ "second")).
Proof.
  split; [discriminate |]. split; [discriminate |]. split; [reflexivity |].
  refine (eq_trans (proj2 (proj2 (same_name_overwrites
    (new_extractor output_directory)
    {| url := "u1"; title := "a/b"; content := "first";
       crawl_time := "T"; content_length := 5 |}
    {| url := "u2"; title := "a:b"; content := "second";
       crawl_time := "T"; content_length := 6 |}
    Sample.empty_world _ _ eq_refl))) _);
    [discriminate | discriminate | reflexivity].
Defined.

(** X9, X12 on the record the mixed stream captures. *)
Lemma run_buffer_records_are_articles_witness :
  Sample.head_record Sample.first_url
    ∈ dataset (extractor (Sample.state Sample.mixed_stream Sample.empty_world))
  ∧ (Sample.first_url ∉ visited_urls (seeded Sample.empty_world))
  ∧ content_length (Sample.head_record Sample.first_url)
    = String.length (content (Sample.head_record Sample.first_url)).
Proof.
  assert (Sample.head_record Sample.first_url
            ∈ dataset (extractor
                 (Sample.state Sample.mixed_stream Sample.empty_world)))
    as Hin by (vm_compute; left).
  destruct (run_buffer_records_are_articles Sample.Tag Sample.soup_find
              Sample.get_text Sample.now 50000 3 Sample.mixed_stream
              Sample.empty_world (Sample.head_record Sample.first_url) Hin)
    as (_ & _ & _ & _ & Hout & _ & Hlen).
  split; [exact Hin |]. split; [exact Hout | exact Hlen].
Defined.

Lemma titled_records_have_artifacts_witness :
  Sample.head_record Sample.first_url
    ∈ dataset (extractor (Sample.state Sample.mixed_stream Sample.empty_world))
  ∧ title (Sample.head_record Sample.first_url) ≠ EmptyString
  ∧ ∃ d', d' ∈ dataset (extractor
                  (Sample.state Sample.mixed_stream Sample.empty_world))
          ∧ txt_name d' = txt_name (Sample.head_record Sample.first_url)
          ∧ files (snd (Sample.run Sample.mixed_stream Sample.empty_world))
              !! txt_name (Sample.head_record Sample.first_url)
            = Some (TextFile (txt_text d')).
Proof.
  assert (Sample.head_record Sample.first_url
            ∈ dataset (extractor
                 (Sample.state Sample.mixed_stream Sample.empty_world)))
    as Hin by (vm_compute; left).
  assert (title (Sample.head_record Sample.first_url) ≠ EmptyString) as Ht
    by discriminate.
  split; [exact Hin |]. split; [exact Ht |].
  exact (titled_records_have_artifacts Sample.Tag Sample.soup_find
           Sample.get_text Sample.now 50000 3 Sample.mixed_stream
           Sample.empty_world (Sample.head_record Sample.first_url) Hin Ht).
Defined.

(** X13 on a run buffer of one record, written into an empty directory. *)
Lemma aggregate_file_seeds_its_urls_witness :
  [Sample.head_record Sample.first_url] ≠ []
  ∧ fst (save_final_dataset Sample.now [Sample.head_record Sample.first_url]
           output_directory Sample.empty_world)
    = Some "nur_articles/nur_dataset_D.json"
  ∧ visited_urls
      (seeded (snd (save_final_dataset Sample.now
                      [Sample.head_record Sample.first_url]
                      output_directory Sample.empty_world)))
    = list_to_set (map url [Sample.head_record Sample.first_url]).
Proof.
  assert ([Sample.head_record Sample.first_url] ≠ []) as Hne by discriminate.
  destruct (aggregate_file_seeds_its_urls Sample.now
              [Sample.head_record Sample.first_url] Sample.empty_world Hne)
    as (Hpath & _ & Hexact).
  split; [exact Hne |]. split; [exact Hpath | exact (Hexact eq_refl)].
Defined.

(** X16 on a directory whose history lists the first URL. *)
Lemma seeded_urls_are_never_extracted_witness :
  Sample.first_url ∈ visited_urls (seeded Sample.clashing_world)
  ∧ Sample.first_url
      ∉ map url (dataset (extractor
           (Sample.state Sample.two_articles Sample.clashing_world))).
Proof.
  assert (Sample.first_url ∈ visited_urls (seeded Sample.clashing_world))
    as Hin by (apply (bool_decide_unpack _); vm_compute; exact I).
  split; [exact Hin |].
  exact (proj2 (seeded_urls_are_never_extracted Sample.Tag Sample.soup_find
                  Sample.get_text Sample.now 50000 3 Sample.two_articles
                  Sample.clashing_world Sample.first_url Hin)).
Defined.

(** X17 on the 500th page result, a page outside [/news/]. *)
Lemma progress_report_skips_duplicates_witness :
  (S 499 mod 500 = 0)%nat
  ∧ ∃ earlier,
      stdout (world
        (step Sample.Tag Sample.soup_find Sample.get_text Sample.now
           {| extractor := new_extractor output_directory;
              world := Sample.empty_world;
              result_count := 499; success_count := 3; skip_count := 2;
              calls := [] |}
           (Sample.page "https://www.nur.cn/about.html" true
              Sample.article_page)))
      = earlier ++ [OutProgress 500 3 2].
Proof.
  split; [reflexivity |].
  refine (proj2 (progress_report_skips_duplicates Sample.Tag Sample.soup_find
    Sample.get_text Sample.now
    {| extractor := new_extractor output_directory;
       world := Sample.empty_world;
       result_count := 499; success_count := 3; skip_count := 2;
       calls := [] |}
    (Sample.page "https://www.nur.cn/about.html" true Sample.article_page)
    eq_refl) _).
  intros [Hacc _]. discriminate Hacc.
Defined.
